(** * Dapr client exceptions: a shallow embedding of [dapr/clients/exceptions.py]

    The module normalises HTTP and gRPC failures into error objects.  The
    embedding keeps the Python data as it is: dynamically typed values
    ([pyval]), exceptions as an explicit [result], the deserializer as an
    injected collaborator whose invocations are logged, and the attribute
    dictionary of [StatusDetails] as an insertion-ordered association list. *)

From Stdlib Require Import List String Ascii Bool ZArith Lia Arith.
From Stdlib.Strings Require Import Byte.
From Stdlib Require Import DecimalString DecimalZ.
From Stdlib Require DecimalFacts DecimalPos.
Import ListNotations.
Local Open Scope string_scope.
Set Warnings "-register-all".

(** ** Python values *)

Definition bytes := list byte.

(** An instance of a class the model does not look into (a user class, say):
    it is known by what [bool()], [str()] and [repr()] make of it, none of
    which raises.  Numbers other than [int] are not modelled. *)
Record pyobject : Type := mkObject {
  obj_bool : bool;
  obj_str : string;
  obj_repr : string
}.

(** The values that reach the module.  Text is a sequence of code points
    below 256, one [ascii] each; a [dict] keeps its items in insertion order
    and has [str] keys. *)
Inductive pyval : Type :=
| PNone
| PBool (b : bool)
| PInt (z : Z)
| PStr (s : string)
| PBytes (bs : bytes)
| PList (items : list pyval)
| PDict (items : list (string * pyval))
| PObject (o : pyobject).

Definition pydict := list (string * pyval).

(** [Optional[str]], [Optional[int]], [Optional[bytes]] as Python values. *)
Definition of_opt_str (o : option string) : pyval :=
  match o with Some s => PStr s | None => PNone end.

Definition of_opt_int (o : option Z) : pyval :=
  match o with Some z => PInt z | None => PNone end.

Definition of_opt_bytes (o : option bytes) : pyval :=
  match o with Some b => PBytes b | None => PNone end.

(** Truth value testing, [bool(v)]. *)
Definition py_bool (v : pyval) : bool :=
  match v with
  | PNone => false
  | PBool b => b
  | PInt z => negb (z =? 0)%Z
  | PStr s => negb (String.eqb s EmptyString)
  | PBytes bs => negb (Nat.eqb (List.length bs) 0)
  | PList l => negb (Nat.eqb (List.length l) 0)
  | PDict d => negb (Nat.eqb (List.length d) 0)
  | PObject o => obj_bool o
  end.

(** [a or b]. *)
Definition py_or (a b : pyval) : pyval := if py_bool a then a else b.

(** [isinstance(v, dict)]. *)
Definition isinstance_dict (v : pyval) : bool :=
  match v with PDict _ => true | _ => false end.

(** [v == s] and [v != s] against a [str]. *)
Definition py_eq_str (v : pyval) (s : string) : bool :=
  match v with PStr t => String.eqb t s | _ => false end.

Definition py_ne_str (v : pyval) (s : string) : bool := negb (py_eq_str v s).

(** ** Dictionaries *)

Fixpoint dict_lookup {A : Type} (d : list (string * A)) (k : string) : option A :=
  match d with
  | [] => None
  | (k', v) :: rest => if String.eqb k k' then Some v else dict_lookup rest k
  end.

(** [d[k] = v]: an existing key keeps its position, a new one goes last. *)
Fixpoint dict_set {A : Type} (d : list (string * A)) (k : string) (v : A)
  : list (string * A) :=
  match d with
  | [] => [(k, v)]
  | (k', v') :: rest =>
      if String.eqb k k' then (k', v) :: rest else (k', v') :: dict_set rest k v
  end.

Definition dict_keys {A : Type} (d : list (string * A)) : list string :=
  List.map fst d.

(** [d.get(k)] and [d.get(k, default)]. *)
Definition dict_get_default (d : pydict) (k : string) (default : pyval) : pyval :=
  match dict_lookup d k with Some v => v | None => default end.

Definition dict_get (d : pydict) (k : string) : pyval := dict_get_default d k PNone.

(** [dict(pairs)]: later pairs overwrite earlier ones. *)
Definition dict_of_pairs {A : Type} (pairs : list (string * A)) : list (string * A) :=
  List.fold_left (fun d kv => dict_set d (fst kv) (snd kv)) pairs [].

(** ** Text rendering: [str()], [repr()] and f-string fields *)

Definition nat_of_char (c : ascii) : nat := nat_of_ascii c.

Definition hex_digit (n : nat) : ascii :=
  match n with
  | 0 => "0" | 1 => "1" | 2 => "2" | 3 => "3" | 4 => "4" | 5 => "5" | 6 => "6"
  | 7 => "7" | 8 => "8" | 9 => "9" | 10 => "a" | 11 => "b" | 12 => "c"
  | 13 => "d" | 14 => "e" | _ => "f"
  end%char.

Definition hex2 (n : nat) : string :=
  String (hex_digit (n / 16)) (String (hex_digit (n mod 16)) EmptyString).

Definition str_of_int (z : Z) : string := NilZero.string_of_int (Z.to_int z).

Fixpoint str_contains (c : ascii) (s : string) : bool :=
  match s with
  | EmptyString => false
  | String c' s' => Ascii.eqb c c' || str_contains c s'
  end.

Definition dquote : ascii := "034"%char.

(** The quote [repr] picks: a single quote unless the text has one and has
    no double quote. *)
Definition repr_quote (s : string) : ascii :=
  if str_contains "'" s && negb (str_contains dquote s) then dquote else "'"%char.

(** [str.isprintable] on a code point from 128 to 255. *)
Definition latin1_printable (n : nat) : bool :=
  Nat.ltb 160 n && negb (Nat.eqb n 173).

Definition repr_char (unicode : bool) (quote c : ascii) : string :=
  let n := nat_of_char c in
  if Ascii.eqb c quote || Ascii.eqb c "\"%char then String "\"%char (String c EmptyString)
  else if Nat.eqb n 9 then "\t"
  else if Nat.eqb n 10 then "\n"
  else if Nat.eqb n 13 then "\r"
  else if Nat.ltb n 32 || Nat.eqb n 127 then "\x" ++ hex2 n
  else if Nat.ltb n 127 then String c EmptyString
  else if unicode && latin1_printable n then String c EmptyString
  else "\x" ++ hex2 n.

Fixpoint repr_body (unicode : bool) (quote : ascii) (s : string) : string :=
  match s with
  | EmptyString => EmptyString
  | String c s' => repr_char unicode quote c ++ repr_body unicode quote s'
  end.

Definition repr_str (s : string) : string :=
  let q := repr_quote s in
  String q (repr_body true q s ++ String q EmptyString).

Definition text_of_bytes (bs : bytes) : string :=
  string_of_list_ascii (List.map ascii_of_byte bs).

Definition repr_bytes (bs : bytes) : string :=
  let s := text_of_bytes bs in
  let q := repr_quote s in
  String "b" (String q (repr_body false q s ++ String q EmptyString)).

Fixpoint join (sep : string) (parts : list string) : string :=
  match parts with
  | [] => EmptyString
  | [p] => p
  | p :: rest => p ++ sep ++ join sep rest
  end.

Fixpoint py_repr (v : pyval) : string :=
  match v with
  | PNone => "None"
  | PBool true => "True"
  | PBool false => "False"
  | PInt z => str_of_int z
  | PStr s => repr_str s
  | PBytes bs => repr_bytes bs
  | PList l => "[" ++ join ", " (List.map py_repr l) ++ "]"
  | PDict d =>
      "{" ++ join ", " (List.map (fun kv => repr_str (fst kv) ++ ": " ++ py_repr (snd kv)) d)
          ++ "}"
  | PObject o => obj_repr o
  end.

(** [str(v)], which is also what an f-string field [{v}] renders. *)
Definition py_str (v : pyval) : string :=
  match v with
  | PStr s => s
  | PObject o => obj_str o
  | _ => py_repr v
  end.

(** ** Exceptions *)

(** A raised exception: an instance of [Exception] (what [except Exception]
    catches) or of [BaseException] only, such as [KeyboardInterrupt]. *)
Inductive pyexc : Type :=
| PyException (cls : string)
| PyBaseException (cls : string).

Definition isinstance_Exception (e : pyexc) : bool :=
  match e with PyException _ => true | PyBaseException _ => false end.

Inductive result (A : Type) : Type :=
| Return (a : A)
| Raise (e : pyexc).
Arguments Return {A} a.
Arguments Raise {A} e.

Definition returns {A : Type} (r : result A) : bool :=
  match r with Return _ => true | Raise _ => false end.

Definition result_bind {A B : Type} (m : result A) (k : A -> result B) : result B :=
  match m with Return a => k a | Raise e => Raise e end.

Notation "x <~ m ;; k" := (result_bind m (fun x => k))
  (at level 61, m at next level, right associativity).

(** ** [base64.b64encode] and [bytes.decode] *)

Definition b64_alphabet : list ascii :=
  list_ascii_of_string
    "ABCDEFGHIJKLMNOPQRSTUVWXYZabcdefghijklmnopqrstuvwxyz0123456789+/".

Definition b64_char (n : nat) : byte :=
  byte_of_ascii (List.nth n b64_alphabet "="%char).

Definition nat_of_byte (b : byte) : nat := nat_of_ascii (ascii_of_byte b).

Definition b64_pad : byte := byte_of_ascii "="%char.

(** Three input bytes give four output characters; a last group of one or
    two bytes is padded with [=]. *)
Fixpoint b64encode (data : bytes) : bytes :=
  match data with
  | [] => []
  | [a] =>
      let a := nat_of_byte a in
      [b64_char (a / 4); b64_char ((a mod 4) * 16); b64_pad; b64_pad]
  | [a; b] =>
      let a := nat_of_byte a in
      let b := nat_of_byte b in
      [b64_char (a / 4); b64_char ((a mod 4) * 16 + b / 16);
       b64_char ((b mod 16) * 4); b64_pad]
  | a :: b :: c :: rest =>
      let a := nat_of_byte a in
      let b := nat_of_byte b in
      let c := nat_of_byte c in
      b64_char (a / 4) :: b64_char ((a mod 4) * 16 + b / 16)
        :: b64_char ((b mod 16) * 4 + c / 64) :: b64_char (c mod 64)
        :: b64encode rest
  end.

(** [data.decode('utf-8')] on bytes below 128, each of which decodes to its
    own code point.  Multi-byte sequences are not decoded by the model: it
    answers them, like an invalid sequence, with [UnicodeDecodeError]. *)
Fixpoint decode_utf8 (data : bytes) : result string :=
  match data with
  | [] => Return EmptyString
  | b :: rest =>
      if Nat.ltb (nat_of_byte b) 128 then
        s <~ decode_utf8 rest ;; Return (String (ascii_of_byte b) s)
      else Raise (PyException "UnicodeDecodeError")
  end.

(** ** [json.dumps] and [json.loads]

    The encoder and decoder of the standard [json] module with their default
    options, on the values of the model.  JSON text is handled as a list of
    characters. *)

Definition chars (s : string) : list ascii := list_ascii_of_string s.

Definition json_escape_char (c : ascii) : list ascii :=
  let n := nat_of_char c in
  (if Ascii.eqb c dquote then ["\"; dquote]
   else if Ascii.eqb c "\" then ["\"; "\"]
   else if Nat.eqb n 8 then ["\"; "b"]
   else if Nat.eqb n 12 then ["\"; "f"]
   else if Nat.eqb n 10 then ["\"; "n"]
   else if Nat.eqb n 13 then ["\"; "r"]
   else if Nat.eqb n 9 then ["\"; "t"]
   else if Nat.ltb n 32 || Nat.ltb 126 n then
     ["\"; "u"; "0"; "0"; hex_digit (n / 16); hex_digit (n mod 16)]
   else [c])%char.

(** [encode_basestring_ascii]. *)
Definition json_encode_str (s : string) : list ascii :=
  dquote :: List.flat_map json_escape_char (chars s) ++ [dquote].

Section JoinEncoded.
Context {A : Type} (encode : A -> result (list ascii)).

(** The items of a list or dict, separated by a comma and a space. *)
Fixpoint json_encode_items (items : list A) : result (list ascii) :=
  match items with
  | [] => Return []
  | [x] => encode x
  | x :: rest =>
      a <~ encode x ;;
      b <~ json_encode_items rest ;;
      Return (a ++ chars ", " ++ b)%list
  end.
End JoinEncoded.

Fixpoint json_encode (o : pyval) : result (list ascii) :=
  match o with
  | PNone => Return (chars "null")
  | PBool true => Return (chars "true")
  | PBool false => Return (chars "false")
  | PInt z => Return (chars (str_of_int z))
  | PStr s => Return (json_encode_str s)
  | PList items =>
      body <~ json_encode_items json_encode items ;;
      Return (chars "[" ++ body ++ chars "]")%list
  | PDict items =>
      body <~ json_encode_items
                (fun kv =>
                   v <~ json_encode (snd kv) ;;
                   Return (json_encode_str (fst kv) ++ chars ": " ++ v)%list)
                items ;;
      Return (chars "{" ++ body ++ chars "}")%list
  | PBytes _ => Raise (PyException "TypeError")
  | PObject _ => Raise (PyException "TypeError")
  end.

Definition json_dumps (obj : pyval) : result string :=
  text <~ json_encode obj ;; Return (string_of_list_ascii text).

Definition is_ws (c : ascii) : bool :=
  let n := nat_of_char c in
  Nat.eqb n 32 || Nat.eqb n 9 || Nat.eqb n 10 || Nat.eqb n 13.

Fixpoint skip_ws (s : list ascii) : list ascii :=
  match s with
  | c :: r => if is_ws c then skip_ws r else s
  | [] => []
  end.

Definition is_digit (c : ascii) : bool :=
  let n := nat_of_char c in Nat.leb 48 n && Nat.leb n 57.

Definition hex_value (c : ascii) : option nat :=
  let n := nat_of_char c in
  if is_digit c then Some (n - 48)
  else if Nat.leb 97 n && Nat.leb n 102 then Some (n - 87)
  else if Nat.leb 65 n && Nat.leb n 70 then Some (n - 55)
  else None.

Definition hex4 (h1 h2 h3 h4 : ascii) : option nat :=
  match hex_value h1, hex_value h2, hex_value h3, hex_value h4 with
  | Some a, Some b, Some c, Some d => Some (((a * 16 + b) * 16 + c) * 16 + d)
  | _, _, _, _ => None
  end.

(** The one-letter escapes of the decoder. *)
Definition json_unescape (esc : ascii) : option ascii :=
  (if Ascii.eqb esc dquote then Some dquote
   else if Ascii.eqb esc "\" then Some "\"
   else if Ascii.eqb esc "/" then Some "/"
   else if Ascii.eqb esc "b" then Some "008"
   else if Ascii.eqb esc "f" then Some "012"
   else if Ascii.eqb esc "n" then Some "010"
   else if Ascii.eqb esc "r" then Some "013"
   else if Ascii.eqb esc "t" then Some "009"
   else None)%char.

Definition prepend (c : ascii) (r : option (string * list ascii))
  : option (string * list ascii) :=
  match r with Some (t, rest) => Some (String c t, rest) | None => None end.

(** [scanstring], entered after the opening quote: the text up to the closing
    quote and what follows it.  An escape [\uXXXX] above 255 names a code
    point the model has no character for and is refused. *)
Fixpoint scanstring (s : list ascii) : option (string * list ascii) :=
  match s with
  | [] => None
  | c :: r =>
      if Ascii.eqb c dquote then Some (EmptyString, r)
      else if Ascii.eqb c "\" then
        match r with
        | [] => None
        | esc :: r1 =>
            if Ascii.eqb esc "u" then
              match r1 with
              | h1 :: h2 :: h3 :: h4 :: r2 =>
                  match hex4 h1 h2 h3 h4 with
                  | Some n =>
                      if Nat.ltb n 256 then prepend (ascii_of_nat n) (scanstring r2)
                      else None
                  | None => None
                  end
              | _ => None
              end
            else
              match json_unescape esc with
              | Some c' => prepend c' (scanstring r1)
              | None => None
              end
        end
      else if Nat.ltb (nat_of_char c) 32 then None
      else prepend c (scanstring r)
  end.

Fixpoint scan_digits (s : list ascii) : list ascii * list ascii :=
  match s with
  | c :: r =>
      if is_digit c then let '(ds, rest) := scan_digits r in (c :: ds, rest)
      else ([], s)
  | [] => ([], [])
  end.

(** The integer part of [NUMBER_RE]: a lone [0], or a non-zero digit and the
    digits after it. *)
Definition scan_intpart (s : list ascii) : option (list ascii * list ascii) :=
  match s with
  | c :: r =>
      if Ascii.eqb c "0" then Some ([c], r)
      else if is_digit c then let '(ds, rest) := scan_digits r in Some (c :: ds, rest)
      else None
  | [] => None
  end.

(** Whether a fraction or an exponent follows the integer part. *)
Definition float_follows (s : list ascii) : bool :=
  match s with
  | c :: d :: rest =>
      if Ascii.eqb c "." then is_digit d
      else if Ascii.eqb c "e" || Ascii.eqb c "E" then
        is_digit d
        || ((Ascii.eqb d "+" || Ascii.eqb d "-")
            && match rest with d' :: _ => is_digit d' | [] => false end)
      else false
  | _ => false
  end.

(** A number.  One with a fraction or an exponent is a [float], which the
    model does not have: it is refused. *)
Definition match_number (s : list ascii) : option (pyval * list ascii) :=
  let '(sign, s1) :=
    match s with
    | c :: r => if Ascii.eqb c "-" then ([c], r) else ([], s)
    | [] => ([], s)
    end in
  match scan_intpart s1 with
  | Some (ds, rest) =>
      if float_follows rest then None
      else
        match NilZero.int_of_string (string_of_list_ascii (sign ++ ds)) with
        | Some d => Some (PInt (Z.of_int d), rest)
        | None => None
        end
  | None => None
  end.

Fixpoint strip_prefix (p s : list ascii) : option (list ascii) :=
  match p, s with
  | [], _ => Some s
  | a :: p', b :: s' => if Ascii.eqb a b then strip_prefix p' s' else None
  | _ :: _, [] => None
  end.

(** [scan_once] with [JSONArray] and [JSONObject]; each nested call takes one
    unit of [fuel].  [JSONArray] and [JSONObject] are entered at the first
    item, the empty list and dict being answered by [scan_once]. *)
Fixpoint scan_once (fuel : nat) (s : list ascii) {struct fuel}
  : option (pyval * list ascii) :=
  match fuel with
  | 0 => None
  | S fuel =>
      match s with
      | [] => None
      | c :: r =>
          if Ascii.eqb c dquote then
            match scanstring r with
            | Some (t, rest) => Some (PStr t, rest)
            | None => None
            end
          else if Ascii.eqb c "{" then
            match strip_prefix ["}"%char] (skip_ws r) with
            | Some rest => Some (PDict [], rest)
            | None =>
                match JSONObject fuel (skip_ws r) with
                | Some (pairs, rest) => Some (PDict (dict_of_pairs pairs), rest)
                | None => None
                end
            end
          else if Ascii.eqb c "[" then
            match strip_prefix ["]"%char] (skip_ws r) with
            | Some rest => Some (PList [], rest)
            | None =>
                match JSONArray fuel (skip_ws r) with
                | Some (values, rest) => Some (PList values, rest)
                | None => None
                end
            end
          else if Ascii.eqb c "n" then
            option_map (fun rest => (PNone, rest)) (strip_prefix (chars "ull") r)
          else if Ascii.eqb c "t" then
            option_map (fun rest => (PBool true, rest)) (strip_prefix (chars "rue") r)
          else if Ascii.eqb c "f" then
            option_map (fun rest => (PBool false, rest)) (strip_prefix (chars "alse") r)
          else match_number s
      end
  end
with JSONArray (fuel : nat) (s : list ascii) {struct fuel}
  : option (list pyval * list ascii) :=
  match fuel with
  | 0 => None
  | S fuel =>
      match scan_once fuel s with
      | Some (value, r) =>
          match skip_ws r with
          | c :: r1 =>
              if Ascii.eqb c "]" then Some ([value], r1)
              else if Ascii.eqb c "," then
                match JSONArray fuel (skip_ws r1) with
                | Some (values, rest) => Some (value :: values, rest)
                | None => None
                end
              else None
          | [] => None
          end
      | None => None
      end
  end
with JSONObject (fuel : nat) (s : list ascii) {struct fuel}
  : option (list (string * pyval) * list ascii) :=
  match fuel with
  | 0 => None
  | S fuel =>
      match strip_prefix [dquote] s with
      | Some r =>
          match scanstring r with
          | Some (key, r1) =>
              match strip_prefix [":"%char] (skip_ws r1) with
              | Some r2 =>
                  match scan_once fuel (skip_ws r2) with
                  | Some (value, r3) =>
                      match skip_ws r3 with
                      | c :: r4 =>
                          if Ascii.eqb c "}" then Some ([(key, value)], r4)
                          else if Ascii.eqb c "," then
                            match JSONObject fuel (skip_ws r4) with
                            | Some (pairs, rest) => Some ((key, value) :: pairs, rest)
                            | None => None
                            end
                          else None
                      | [] => None
                      end
                  | None => None
                  end
              | None => None
              end
          | None => None
          end
      | None => None
      end
  end.

(** [json.loads]: one value, with nothing but white space around it. *)
Definition json_loads (s : string) : result pyval :=
  let text := chars s in
  match scan_once (S (List.length text)) (skip_ws text) with
  | Some (obj, rest) =>
      match skip_ws rest with
      | [] => Return obj
      | _ :: _ => Raise (PyException "JSONDecodeError")
      end
  | None => Raise (PyException "JSONDecodeError")
  end.

(** The values [json.dumps] writes and [json.loads] reads back: no [bytes], no
    foreign object, and (as in every Python dict) no key twice. *)
Fixpoint distinct (keys : list string) : bool :=
  match keys with
  | [] => true
  | k :: rest => negb (List.existsb (String.eqb k) rest) && distinct rest
  end.

Fixpoint json_value (v : pyval) : bool :=
  match v with
  | PBytes _ | PObject _ => false
  | PList items => List.forallb json_value items
  | PDict items =>
      distinct (List.map fst items)
      && List.forallb (fun kv => json_value (snd kv)) items
  | _ => true
  end.

(** ** The error codes *)

Definition ERROR_CODE_UNKNOWN : string := "UNKNOWN".
Definition ERROR_CODE_DOES_NOT_EXIST : string := "ERR_DOES_NOT_EXIST".

(** ** [class DaprInternalError(Exception)] *)

Module DaprInternalError.

Record t : Type := mk {
  _message : pyval;
  _error_code : pyval;
  _raw_response_bytes : option bytes
}.

(** [__init__(self, message, error_code=ERROR_CODE_UNKNOWN,
    raw_response_bytes=None)]; an argument the caller leaves out is [None]
    here and takes its default. *)
Definition __init__ (message : pyval) (error_code : option pyval)
    (raw_response_bytes : option (option bytes)) : t :=
  {| _message := message;
     _error_code :=
       match error_code with Some c => c | None => PStr ERROR_CODE_UNKNOWN end;
     _raw_response_bytes :=
       match raw_response_bytes with Some r => r | None => None end |}.

Definition as_dict (self : t) : pydict :=
  [ ("message", _message self);
    ("errorCode", _error_code self);
    ("raw_response_bytes", of_opt_bytes (_raw_response_bytes self)) ].

(** The method is written over [self.as_dict()], which a subclass may
    override. *)
Definition as_json_safe_dict_over (self_as_dict : pydict) (self : t)
  : result pydict :=
  let error_dict := self_as_dict in
  match _raw_response_bytes self with
  | Some raw =>
      text <~ decode_utf8 (b64encode raw) ;;
      Return (dict_set error_dict "raw_response_bytes" (PStr text))
  | None => Return error_dict
  end.

Definition as_json_safe_dict (self : t) : result pydict :=
  as_json_safe_dict_over (as_dict self) self.

Definition message (self : t) : pyval := _message self.
Definition error_code (self : t) : pyval := _error_code self.
Definition raw_response_bytes (self : t) : option bytes := _raw_response_bytes self.

(** [__str__] has to hand back a [str]; [str()] raises [TypeError] on
    anything else. *)
Definition __str__ (self : t) : result string :=
  if py_ne_str (_error_code self) ERROR_CODE_UNKNOWN then
    Return ("('" ++ py_str (_message self) ++ "', '"
              ++ py_str (_error_code self) ++ "')")
  else
    match py_or (_message self) (PStr "Unknown Dapr Error.") with
    | PStr s => Return s
    | _ => Raise (PyException "TypeError")
    end.

End DaprInternalError.

(** ** [class StatusDetails] *)

Module StatusDetails.

(** The instance is its attribute dictionary, [self.__dict__]. *)
Definition t : Type := pydict.

(** The attributes that [__init__] sets, in its order. *)
Definition field_names : list string :=
  [ "error_info"; "retry_info"; "debug_info"; "quota_failure";
    "precondition_failure"; "bad_request"; "request_info"; "resource_info";
    "help"; "localized_message" ].

(** The class defines neither [__bool__] nor [__len__]: an instance is
    truthy. *)
Definition __bool__ (self : t) : bool := true.

Definition setattr (self : t) (attr : string) (value : pyval) : t :=
  dict_set self attr value.

Definition getattr (self : t) (attr : string) : result pyval :=
  match dict_lookup self attr with
  | Some v => Return v
  | None => Raise (PyException "AttributeError")
  end.

Definition __init__ : t :=
  let self := [] in
  let self := setattr self "error_info" PNone in
  let self := setattr self "retry_info" PNone in
  let self := setattr self "debug_info" PNone in
  let self := setattr self "quota_failure" PNone in
  let self := setattr self "precondition_failure" PNone in
  let self := setattr self "bad_request" PNone in
  let self := setattr self "request_info" PNone in
  let self := setattr self "resource_info" PNone in
  let self := setattr self "help" PNone in
  let self := setattr self "localized_message" PNone in
  self.

(** [{attr: getattr(self, attr) for attr in self.__dict__}]. *)
Fixpoint comprehension (self : t) (attrs : list string) (acc : pydict)
  : result pydict :=
  match attrs with
  | [] => Return acc
  | attr :: rest =>
      v <~ getattr self attr ;; comprehension self rest (dict_set acc attr v)
  end.

Definition as_dict (self : t) : result pydict :=
  comprehension self (dict_keys self) [].

End StatusDetails.

(** ** The injected deserializer and its call log *)

Record Serializer : Type := mkSerializer {
  deserialize : bytes -> result pyval
}.

(** A computation that may call the deserializer: the arguments of the calls
    it made, in order, and how it ended. *)
Definition io (A : Type) : Type := (list bytes * result A)%type.

Definition io_ret {A : Type} (a : A) : io A := ([], Return a).

Definition io_bind {A B : Type} (m : io A) (k : A -> io B) : io B :=
  match m with
  | (log, Return a) => let '(log', r) := k a in ((log ++ log')%list, r)
  | (log, Raise e) => (log, Raise e)
  end.

Notation "x <- m ;; k" := (io_bind m (fun x => k))
  (at level 61, m at next level, right associativity).
Notation "' p <- m ;; k" := (io_bind m (fun p => k))
  (at level 61, p pattern, m at next level, right associativity).

Definition calls {A : Type} (m : io A) : list bytes := fst m.
Definition outcome {A : Type} (m : io A) : result A := snd m.

Definition call_deserialize (serializer : Serializer) (data : bytes) : io pyval :=
  ([data], deserialize serializer data).

(** [try: body] / [except Exception: handler]. *)
Definition try_except_Exception {A : Type} (body : io A) (handler : io A) : io A :=
  match body with
  | (log, Raise e) =>
      if isinstance_Exception e then
        let '(log', r) := handler in ((log ++ log')%list, r)
      else (log, Raise e)
  | done => done
  end.

(** ** [class DaprHttpError(DaprInternalError)] *)

Module DaprHttpError.

Record t : Type := mk {
  super : DaprInternalError.t;
  _status_code : option Z;
  _reason : option string
}.

Definition is_None_or_empty (raw : option bytes) : bool :=
  match raw with None => true | Some b => Nat.eqb (List.length b) 0 end.

Definition eq_int (status_code : option Z) (n : Z) : bool :=
  match status_code with Some z => (z =? n)%Z | None => false end.

Definition __init__ (serializer : Serializer)
    (raw_response_bytes : option bytes) (status_code : option Z)
    (reason : option string) : io t :=
  let error_code := PStr ERROR_CODE_UNKNOWN in
  let message := PNone in
  let error_info := PNone in
  '(message, error_code, raw_response_bytes) <-
    (if is_None_or_empty raw_response_bytes && eq_int status_code 404 then
       io_ret (message, PStr ERROR_CODE_DOES_NOT_EXIST, None)
     else if py_bool (of_opt_bytes raw_response_bytes) then
       error_info <-
         try_except_Exception
           (call_deserialize serializer
              (match raw_response_bytes with Some b => b | None => [] end))
           (io_ret error_info) ;;
       if py_bool error_info && isinstance_dict error_info then
         match error_info with
         | PDict d =>
             io_ret (dict_get d "message",
                     py_or (dict_get d "errorCode") (PStr ERROR_CODE_UNKNOWN),
                     raw_response_bytes)
         | _ => io_ret (message, error_code, raw_response_bytes)
         end
       else io_ret (message, error_code, raw_response_bytes)
     else io_ret (message, error_code, raw_response_bytes)) ;;
  io_ret
    {| super :=
         DaprInternalError.__init__
           (py_or message
              (PStr ("HTTP status code: " ++ py_str (of_opt_int status_code))))
           (Some error_code) (Some raw_response_bytes);
       _status_code := status_code;
       _reason := reason |}.

Definition message (self : t) : pyval := DaprInternalError.message (super self).
Definition error_code (self : t) : pyval := DaprInternalError.error_code (super self).
Definition raw_response_bytes (self : t) : option bytes :=
  DaprInternalError.raw_response_bytes (super self).
Definition status_code (self : t) : option Z := _status_code self.
Definition reason (self : t) : option string := _reason self.

Definition as_dict (self : t) : pydict :=
  let error_dict := DaprInternalError.as_dict (super self) in
  let error_dict := dict_set error_dict "status_code" (of_opt_int (_status_code self)) in
  let error_dict := dict_set error_dict "reason" (of_opt_str (_reason self)) in
  error_dict.

Definition as_json_safe_dict (self : t) : result pydict :=
  DaprInternalError.as_json_safe_dict_over (as_dict self) (super self).

Definition __str__ (self : t) : string :=
  if py_ne_str (error_code self) ERROR_CODE_UNKNOWN then
    py_str (message self) ++ " (Error Code: " ++ py_str (error_code self)
      ++ ", Status Code: " ++ py_str (of_opt_int (_status_code self)) ++ ")"
  else
    "Unknown Dapr Error. HTTP status code: "
      ++ py_str (of_opt_int (_status_code self)) ++ ".".

End DaprHttpError.

(** ** The gRPC collaborators

    What the module uses of [grpc], [google.protobuf], [google.rpc] and
    [grpc_status]. *)

Module StatusCode.

Inductive t : Type :=
| OK | CANCELLED | UNKNOWN | INVALID_ARGUMENT | DEADLINE_EXCEEDED | NOT_FOUND
| ALREADY_EXISTS | PERMISSION_DENIED | RESOURCE_EXHAUSTED | FAILED_PRECONDITION
| ABORTED | OUT_OF_RANGE | UNIMPLEMENTED | INTERNAL | UNAVAILABLE | DATA_LOSS
| UNAUTHENTICATED.

(** The member's [name]. *)
Definition name (c : t) : string :=
  match c with
  | OK => "OK" | CANCELLED => "CANCELLED" | UNKNOWN => "UNKNOWN"
  | INVALID_ARGUMENT => "INVALID_ARGUMENT"
  | DEADLINE_EXCEEDED => "DEADLINE_EXCEEDED" | NOT_FOUND => "NOT_FOUND"
  | ALREADY_EXISTS => "ALREADY_EXISTS" | PERMISSION_DENIED => "PERMISSION_DENIED"
  | RESOURCE_EXHAUSTED => "RESOURCE_EXHAUSTED"
  | FAILED_PRECONDITION => "FAILED_PRECONDITION" | ABORTED => "ABORTED"
  | OUT_OF_RANGE => "OUT_OF_RANGE" | UNIMPLEMENTED => "UNIMPLEMENTED"
  | INTERNAL => "INTERNAL" | UNAVAILABLE => "UNAVAILABLE"
  | DATA_LOSS => "DATA_LOSS" | UNAUTHENTICATED => "UNAUTHENTICATED"
  end.

(** The number in the member's [value], [value[0]]. *)
Definition number (c : t) : Z :=
  match c with
  | OK => 0 | CANCELLED => 1 | UNKNOWN => 2 | INVALID_ARGUMENT => 3
  | DEADLINE_EXCEEDED => 4 | NOT_FOUND => 5 | ALREADY_EXISTS => 6
  | PERMISSION_DENIED => 7 | RESOURCE_EXHAUSTED => 8 | FAILED_PRECONDITION => 9
  | ABORTED => 10 | OUT_OF_RANGE => 11 | UNIMPLEMENTED => 12 | INTERNAL => 13
  | UNAVAILABLE => 14 | DATA_LOSS => 15 | UNAUTHENTICATED => 16
  end%Z.

End StatusCode.

(** [google.protobuf.Any], the type of a status detail. *)
Module Any.

(** The packed bytes of a detail, known by what
    [MessageToDict(detail, preserving_proto_field_name=True)] makes of
    them: the dictionary of a message that parses and converts, bytes that
    do not parse as a message of the type, or a message with a field that
    has no JSON form (a [Duration] out of range, say). *)
Inductive packed : Type :=
| Packed (fields : pydict)
| Corrupt
| OutOfRange.

Record t : Type := mk {
  type_url : string;
  value : packed
}.

(** [type_url.split('/')[-1]]. *)
Fixpoint after_last_slash (s : string) : string :=
  match s with
  | EmptyString => EmptyString
  | String c r =>
      if str_contains "/" r then after_last_slash r
      else if Ascii.eqb c "/" then r
      else s
  end.

Definition TypeName (self : t) : string := after_last_slash (type_url self).

(** [Is(descriptor)], the descriptor given by its [full_name]. *)
Definition Is (self : t) (full_name : string) : bool :=
  str_contains "/" (type_url self) && String.eqb (TypeName self) full_name.

(** A protobuf message defines neither [__bool__] nor [__len__]. *)
Definition __bool__ (self : t) : bool := true.

End Any.

(** [google.protobuf.json_format.MessageToDict] on a detail: it parses the
    packed bytes and converts the message, and raises when either fails. *)
Definition MessageToDict (message : Any.t) : result pydict :=
  match Any.value message with
  | Any.Packed fields => Return fields
  | Any.Corrupt => Raise (PyException "DecodeError")
  | Any.OutOfRange => Raise (PyException "SerializeToJsonError")
  end.

(** The [DESCRIPTOR.full_name] of the messages of [error_details_pb2]. *)
Module error_details_pb2.
Definition ErrorInfo : string := "google.rpc.ErrorInfo".
Definition RetryInfo : string := "google.rpc.RetryInfo".
Definition DebugInfo : string := "google.rpc.DebugInfo".
Definition QuotaFailure : string := "google.rpc.QuotaFailure".
Definition PreconditionFailure : string := "google.rpc.PreconditionFailure".
Definition BadRequest : string := "google.rpc.BadRequest".
Definition RequestInfo : string := "google.rpc.RequestInfo".
Definition ResourceInfo : string := "google.rpc.ResourceInfo".
Definition Help : string := "google.rpc.Help".
Definition LocalizedMessage : string := "google.rpc.LocalizedMessage".
End error_details_pb2.

(** [google.rpc.status_pb2.Status]. *)
Module Status.

Record t : Type := mk {
  code : Z;
  message : string;
  details : list Any.t
}.

End Status.

(** A value of the trailing metadata: bytes on the wire, known by what
    [Status.FromString] makes of them. *)
Inductive metadata_value : Type :=
| Serialized (status : Status.t)
| Undecodable.

Definition Status_FromString (value : metadata_value) : result Status.t :=
  match value with
  | Serialized status => Return status
  | Undecodable => Raise (PyException "DecodeError")
  end.

(** The [grpc.RpcError] raised by a call, which is a [grpc.Call] as well. *)
Module RpcError.

Record t : Type := mk {
  code : StatusCode.t;
  details : option string;
  trailing_metadata : option (list (string * metadata_value))
}.

End RpcError.

Module rpc_status.

Definition GRPC_DETAILS_METADATA_KEY : string := "grpc-status-details-bin".

Definition details_differ (details : option string) (message : string) : bool :=
  match details with
  | Some d => negb (String.eqb d message)
  | None => true
  end.

(** The loop of [from_call] over the metadata. *)
Fixpoint scan (call : RpcError.t) (metadata : list (string * metadata_value))
  : result (option Status.t) :=
  match metadata with
  | [] => Return None
  | (key, value) :: rest =>
      if String.eqb key GRPC_DETAILS_METADATA_KEY then
        rich_status <~ Status_FromString value ;;
        if negb (StatusCode.number (RpcError.code call) =? Status.code rich_status)%Z
        then Raise (PyException "ValueError")
        else if details_differ (RpcError.details call) (Status.message rich_status)
        then Raise (PyException "ValueError")
        else Return (Some rich_status)
      else scan call rest
  end.

(** [grpc_status.rpc_status.from_call]: the status under the details key
    of the trailing metadata, [None] without one, and [ValueError] when
    its code or message is not the call's. *)
Definition from_call (call : RpcError.t) : result (option Status.t) :=
  match RpcError.trailing_metadata call with
  | None => Return None
  | Some metadata => scan call metadata
  end.

End rpc_status.

(** ** [serialize_status_detail] *)

Definition serialize_status_detail (status_detail : Any.t) : result pyval :=
  if negb (Any.__bool__ status_detail) then Return PNone
  else
    fields <~ MessageToDict status_detail ;;
    Return (PDict fields).

(** ** [class DaprGrpcError(RpcError)] *)

Module DaprGrpcError.

Record t : Type := mk {
  _status_code : StatusCode.t;
  _err_message : option string;
  _details : StatusDetails.t;
  _grpc_status : option Status.t
}.

Definition set_details (self : t) (details : StatusDetails.t) : t :=
  {| _status_code := _status_code self;
     _err_message := _err_message self;
     _details := details;
     _grpc_status := _grpc_status self |}.

(** The body of the loop of [_parse_details], on [self._details]: when
    [serialize_status_detail] raises, nothing is assigned and the exception
    leaves the loop. *)
Definition parse_detail (details : StatusDetails.t) (detail : Any.t)
  : result StatusDetails.t :=
  if Any.Is detail error_details_pb2.ErrorInfo then
    error_info <~ serialize_status_detail detail ;;
    Return (StatusDetails.setattr details "error_info" error_info)
  else if Any.Is detail error_details_pb2.RetryInfo then
    retry_info <~ serialize_status_detail detail ;;
    Return (StatusDetails.setattr details "retry_info" retry_info)
  else if Any.Is detail error_details_pb2.DebugInfo then
    debug_info <~ serialize_status_detail detail ;;
    Return (StatusDetails.setattr details "debug_info" debug_info)
  else if Any.Is detail error_details_pb2.QuotaFailure then
    quota_failure <~ serialize_status_detail detail ;;
    Return (StatusDetails.setattr details "quota_failure" quota_failure)
  else if Any.Is detail error_details_pb2.PreconditionFailure then
    precondition_failure <~ serialize_status_detail detail ;;
    Return (StatusDetails.setattr details "precondition_failure" precondition_failure)
  else if Any.Is detail error_details_pb2.BadRequest then
    bad_request <~ serialize_status_detail detail ;;
    Return (StatusDetails.setattr details "bad_request" bad_request)
  else if Any.Is detail error_details_pb2.RequestInfo then
    request_info <~ serialize_status_detail detail ;;
    Return (StatusDetails.setattr details "request_info" request_info)
  else if Any.Is detail error_details_pb2.ResourceInfo then
    resource_info <~ serialize_status_detail detail ;;
    Return (StatusDetails.setattr details "resource_info" resource_info)
  else if Any.Is detail error_details_pb2.Help then
    help <~ serialize_status_detail detail ;;
    Return (StatusDetails.setattr details "help" help)
  else if Any.Is detail error_details_pb2.LocalizedMessage then
    localized_message <~ serialize_status_detail detail ;;
    Return (StatusDetails.setattr details "localized_message" localized_message)
  else Return details.

(** [for detail in self._grpc_status.details: ...].  An exception ends the
    loop; what earlier rounds assigned is then on an object that
    [__init__] never hands out. *)
Fixpoint for_each_detail (grpc_details : list Any.t) (details : StatusDetails.t)
  : result StatusDetails.t :=
  match grpc_details with
  | [] => Return details
  | detail :: rest =>
      details <~ parse_detail details detail ;;
      for_each_detail rest details
  end.

Definition _parse_details (self : t) : result t :=
  match _grpc_status self with
  | None => Return self
  | Some grpc_status =>
      details <~ for_each_detail (Status.details grpc_status) (_details self) ;;
      Return (set_details self details)
  end.

Definition __init__ (err : RpcError.t) : result t :=
  let status_code := RpcError.code err in
  let err_message := RpcError.details err in
  let details := StatusDetails.__init__ in
  grpc_status <~ rpc_status.from_call err ;;
  _parse_details
    {| _status_code := status_code;
       _err_message := err_message;
       _details := details;
       _grpc_status := grpc_status |}.

Definition code (self : t) : StatusCode.t := _status_code self.
Definition details (self : t) : option string := _err_message self.
Definition status_details (self : t) : StatusDetails.t := _details self.
Definition get_grpc_status (self : t) : option Status.t := _grpc_status self.

Definition error_code (self : t) : result pyval :=
  if negb (StatusDetails.__bool__ (status_details self)) then
    Return (PStr ERROR_CODE_UNKNOWN)
  else
    error_info <~ StatusDetails.getattr (status_details self) "error_info" ;;
    if negb (py_bool error_info) then Return (PStr ERROR_CODE_UNKNOWN)
    else
      match error_info with
      | PDict d => Return (dict_get_default d "reason" (PStr ERROR_CODE_UNKNOWN))
      | _ => Raise (PyException "AttributeError")
      end.

Definition json (self : t) : result string :=
  error_code_value <~ error_code self ;;
  details_dict <~ StatusDetails.as_dict (_details self) ;;
  let error_details :=
    [ ("status_code", PStr (StatusCode.name (code self)));
      ("message", of_opt_str (details self));
      ("error_code", error_code_value);
      ("details", PDict details_dict) ] in
  json_dumps (PDict error_details).

End DaprGrpcError.

(** ** Sample failures *)

Definition a_body : bytes := [x7b; x7d].

Definition quota_fields : pydict :=
  [ ("@type", PStr "type.googleapis.com/google.rpc.ErrorInfo");
    ("reason", PStr "QUOTA_EXCEEDED");
    ("domain", PStr "dapr.io") ].

Definition quota_detail : Any.t :=
  {| Any.type_url := "type.googleapis.com/google.rpc.ErrorInfo";
     Any.value := Any.Packed quota_fields |}.

Definition quota_status : Status.t :=
  {| Status.code := 8;
     Status.message := "quota exceeded";
     Status.details := [quota_detail] |}.

Definition quota_call : RpcError.t :=
  {| RpcError.code := StatusCode.RESOURCE_EXHAUSTED;
     RpcError.details := Some "quota exceeded";
     RpcError.trailing_metadata :=
       Some [(rpc_status.GRPC_DETAILS_METADATA_KEY, Serialized quota_status)] |}.

(** The error that [DaprGrpcError(quota_call)] builds. *)
Definition quota_error : DaprGrpcError.t :=
  {| DaprGrpcError._status_code := StatusCode.RESOURCE_EXHAUSTED;
     DaprGrpcError._err_message := Some "quota exceeded";
     DaprGrpcError._details :=
       StatusDetails.setattr StatusDetails.__init__ "error_info" (PDict quota_fields);
     DaprGrpcError._grpc_status := Some quota_status |}.





(** ** Vocabulary of the statements *)

(** The f-string [f'HTTP status code: {status_code}']. *)
Definition http_status_text (status_code : option Z) : string :=
  "HTTP status code: " ++ py_str (of_opt_int status_code).

(** The f-string [f'Unknown Dapr Error. HTTP status code: {status_code}.']. *)
Definition unknown_http_text (status_code : option Z) : string :=
  "Unknown Dapr Error. HTTP status code: " ++ py_str (of_opt_int status_code) ++ ".".

(** A [DaprHttpError] by its five attributes. *)
Definition http_error (message error_code : pyval) (raw : option bytes)
    (status_code : option Z) (reason : option string) : DaprHttpError.t :=
  {| DaprHttpError.super :=
       {| DaprInternalError._message := message;
          DaprInternalError._error_code := error_code;
          DaprInternalError._raw_response_bytes := raw |};
     DaprHttpError._status_code := status_code;
     DaprHttpError._reason := reason |}.

(** [needle in hay]. *)
Fixpoint str_includes (needle hay : string) : bool :=
  String.prefix needle hay
  || match hay with
     | EmptyString => false
     | String _ hay' => str_includes needle hay'
     end.

Fixpoint last_char (s : string) : option ascii :=
  match s with
  | EmptyString => None
  | String c EmptyString => Some c
  | String _ s' => last_char s'
  end.

(** The message that the specification promises for a body that
    deserializes to a mapping whose [message] is [m]: [m] itself, and the
    status text only when [m] is absent or [None]. *)
Definition spec_message_of_mapping (m : pyval) (status_code : option Z) : pyval :=
  match m with
  | PNone => PStr (http_status_text status_code)
  | _ => m
  end.

(** The base64 text of some bytes. *)
Definition b64_text (raw : bytes) : string := text_of_bytes (b64encode raw).

Definition is_ascii (b : byte) : bool := Nat.ltb (nat_of_byte b) 128.

(** The last detail of a given type, the one [_parse_details] keeps. *)
Fixpoint last_detail (full_name : string) (details : list Any.t) : option Any.t :=
  match details with
  | [] => None
  | detail :: rest =>
      match last_detail full_name rest with
      | Some later => Some later
      | None => if Any.Is detail full_name then Some detail else None
      end
  end.

(** What [MessageToDict] makes of a detail of the status is a JSON value. *)
Definition json_details (grpc_status : option Status.t) : bool :=
  match grpc_status with
  | Some status =>
      List.forallb
        (fun detail =>
           match MessageToDict detail with
           | Return fields => json_value (PDict fields)
           | Raise _ => true
           end)
        (Status.details status)
  | None => true
  end.


(** The invariant of the [StatusDetails] of a [DaprGrpcError]: the ten
    attributes, in the order [__init__] sets them, each [None] or a dict
    that satisfies [Q]. *)
Definition details_shape (Q : pydict -> Prop) (self : StatusDetails.t) : Prop :=
  dict_keys self = StatusDetails.field_names
  /\ Forall (fun v => v = PNone \/ exists d, v = PDict d /\ Q d) (List.map snd self).

(** ** Measures and invariants of the JSON round trip *)

(** What may follow a value inside JSON text: nothing, or the comma or
    bracket that ends an item. *)
Definition delimited (rest : list ascii) : bool :=
  match rest with
  | [] => true
  | c :: _ => Ascii.eqb c "," || Ascii.eqb c "]" || Ascii.eqb c "}"
  end.

Definition digits_of (d : Decimal.uint) : list ascii :=
  chars (NilEmpty.string_of_uint d).

(** The fuel that reading a value back takes. *)
Fixpoint size (v : pyval) : nat :=
  match v with
  | PList items => S (list_sum (List.map (fun x => S (size x)) items))
  | PDict items => S (list_sum (List.map (fun kv => S (size (snd kv))) items))
  | _ => 1
  end.

Definition items_size (items : list pyval) : nat :=
  list_sum (List.map (fun x => S (size x)) items).

Definition pairs_size (items : list (string * pyval)) : nat :=
  list_sum (List.map (fun kv => S (size (snd kv))) items).

(** The encoder of one dict item, as [json_encode] has it. *)
Definition encode_pair (kv : string * pyval) : result (list ascii) :=
  v <~ json_encode (snd kv) ;;
  Return (json_encode_str (fst kv) ++ chars ": " ++ v)%list.

(** Encoded text opens with a character that is neither white space nor a
    closing bracket. *)
Definition value_head (text : list ascii) : bool :=
  match text with
  | c :: _ => negb (is_ws c) && negb (Ascii.eqb "]" c)
  | [] => false
  end.

(** [v] is encoded to a text that [scan_once] reads back as [v], whatever
    delimited text follows and given fuel for its size. *)
Definition reads_back (v : pyval) : Prop :=
  exists text,
    json_encode v = Return text
    /\ size v <= List.length text
    /\ value_head text = true
    /\ forall fuel rest,
         size v <= fuel -> delimited rest = true ->
         scan_once fuel (text ++ rest)%list = Some (v, rest).

(** Induction on values that reaches the items of lists and dicts. *)
Section PyvalInduction.
Variable P : pyval -> Prop.
Hypothesis HNone : P PNone.
Hypothesis HBool : forall b, P (PBool b).
Hypothesis HInt : forall z, P (PInt z).
Hypothesis HStr : forall s, P (PStr s).
Hypothesis HBytes : forall bs, P (PBytes bs).
Hypothesis HObject : forall o, P (PObject o).
Hypothesis HList : forall items, Forall P items -> P (PList items).
Hypothesis HDict :
  forall items, Forall (fun kv => P (snd kv)) items -> P (PDict items).

Fixpoint pyval_nested_ind (v : pyval) : P v :=
  match v with
  | PNone => HNone
  | PBool b => HBool b
  | PInt z => HInt z
  | PStr s => HStr s
  | PBytes bs => HBytes bs
  | PObject o => HObject o
  | PList items =>
      HList items
        ((fix all (l : list pyval) : Forall P l :=
            match l with
            | [] => Forall_nil P
            | x :: r => Forall_cons x (pyval_nested_ind x) (all r)
            end) items)
  | PDict items =>
      HDict items
        ((fix all (l : list (string * pyval)) : Forall (fun kv => P (snd kv)) l :=
            match l with
            | [] => Forall_nil _
            | (k, x) :: r =>
                Forall_cons (P := fun kv => P (snd kv)) (k, x)
                  (pyval_nested_ind x) (all r)
            end) items)
  end.
End PyvalInduction.

(** ** Further vocabulary and samples *)

(** Every value the deserializer returns is a JSON value, as with the JSON
    serializer of the SDK. *)
Definition json_serializer (serializer : Serializer) : Prop :=
  forall data v, deserialize serializer data = Return v -> json_value v = true.

(** The [raw_response_bytes] entry of a JSON-safe dictionary. *)
Definition safe_bytes (raw : option bytes) : pyval :=
  match raw with
  | Some data => PStr (b64_text data)
  | None => PNone
  end.

(** The attribute that [_parse_details] sets for each detail type. *)
Definition detail_kinds : list (string * string) :=
  [ ("error_info", error_details_pb2.ErrorInfo);
    ("retry_info", error_details_pb2.RetryInfo);
    ("debug_info", error_details_pb2.DebugInfo);
    ("quota_failure", error_details_pb2.QuotaFailure);
    ("precondition_failure", error_details_pb2.PreconditionFailure);
    ("bad_request", error_details_pb2.BadRequest);
    ("request_info", error_details_pb2.RequestInfo);
    ("resource_info", error_details_pb2.ResourceInfo);
    ("help", error_details_pb2.Help);
    ("localized_message", error_details_pb2.LocalizedMessage) ].

(** The detail is of one of the ten types. *)
Definition known_kind (detail : Any.t) : bool :=
  List.existsb (fun kind => Any.Is detail (snd kind)) detail_kinds.

(** The exception of the first detail of a known type that [MessageToDict]
    does not convert. *)
Fixpoint first_unconvertible (details : list Any.t) : option pyexc :=
  match details with
  | [] => None
  | detail :: rest =>
      if known_kind detail then
        match MessageToDict detail with
        | Raise exn => Some exn
        | Return _ => first_unconvertible rest
        end
      else first_unconvertible rest
  end.

(** What an attribute of [StatusDetails] holds after [_parse_details]: the
    conversion of the last detail of the attribute's type. *)
Definition kept_detail (full_name : string) (grpc_status : option Status.t)
  : result pyval :=
  match grpc_status with
  | Some status =>
      match last_detail full_name (Status.details status) with
      | Some detail => serialize_status_detail detail
      | None => Return PNone
      end
  | None => Return PNone
  end.

Definition retry_fields : pydict :=
  [ ("@type", PStr "type.googleapis.com/google.rpc.RetryInfo");
    ("retry_delay", PStr "5s") ].

Definition retry_detail : Any.t :=
  {| Any.type_url := "type.googleapis.com/google.rpc.RetryInfo";
     Any.value := Any.Packed retry_fields |}.

Definition foreign_detail : Any.t :=
  {| Any.type_url := "type.googleapis.com/acme.Trace";
     Any.value := Any.Packed [ ("@type", PStr "type.googleapis.com/acme.Trace") ] |}.

(** A call with two [ErrorInfo] details, a [RetryInfo] and a foreign one. *)
Definition busy_status : Status.t :=
  {| Status.code := 14;
     Status.message := "busy";
     Status.details :=
       [ {| Any.type_url := "type.googleapis.com/google.rpc.ErrorInfo";
            Any.value := Any.Packed [("reason", PStr "FIRST")] |};
         retry_detail; foreign_detail; quota_detail ] |}.

Definition busy_call : RpcError.t :=
  {| RpcError.code := StatusCode.UNAVAILABLE;
     RpcError.details := Some "busy";
     RpcError.trailing_metadata :=
       Some [(rpc_status.GRPC_DETAILS_METADATA_KEY, Serialized busy_status)] |}.

Definition busy_error : DaprGrpcError.t :=
  {| DaprGrpcError._status_code := StatusCode.UNAVAILABLE;
     DaprGrpcError._err_message := Some "busy";
     DaprGrpcError._details :=
       StatusDetails.setattr
         (StatusDetails.setattr StatusDetails.__init__ "error_info" (PDict quota_fields))
         "retry_info" (PDict retry_fields);
     DaprGrpcError._grpc_status := Some busy_status |}.

Definition foreign_status : Status.t :=
  {| Status.code := 14; Status.message := "busy"; Status.details := [foreign_detail] |}.

Definition foreign_call : RpcError.t :=
  {| RpcError.code := StatusCode.UNAVAILABLE;
     RpcError.details := Some "busy";
     RpcError.trailing_metadata :=
       Some [(rpc_status.GRPC_DETAILS_METADATA_KEY, Serialized foreign_status)] |}.

Definition foreign_error : DaprGrpcError.t :=
  {| DaprGrpcError._status_code := StatusCode.UNAVAILABLE;
     DaprGrpcError._err_message := Some "busy";
     DaprGrpcError._details := StatusDetails.__init__;
     DaprGrpcError._grpc_status := Some foreign_status |}.



Fixpoint index_of (c : ascii) (l : list ascii) : nat :=
  match l with
  | [] => 0
  | x :: r => if Ascii.eqb c x then 0 else S (index_of c r)
  end.

(** The place of a character in the base64 alphabet, 64 for any other. *)
Definition b64_index (b : byte) : nat := index_of (ascii_of_byte b) b64_alphabet.

(** * The JSON round trip *)

Local Open Scope list_scope.

(** ** Strings: every character is read back from its escape *)

Lemma scanstring_escape_char (c : ascii) (r : list ascii) :
  scanstring (json_escape_char c ++ r) = prepend c (scanstring r).
Proof.
  destruct c as [[] [] [] [] [] [] [] []]; reflexivity.
Qed.

Lemma scanstring_encoded (s : string) (rest : list ascii) :
  scanstring (flat_map json_escape_char (chars s) ++ dquote :: rest) = Some (s, rest).
Proof.
  induction s as [|c s IH]; [reflexivity|].
  cbn [chars list_ascii_of_string flat_map]. rewrite <- app_assoc.
  rewrite scanstring_escape_char. unfold chars in IH. rewrite IH. reflexivity.
Qed.

(** ** Integers: the decimal text is read back as the integer *)

Lemma delimited_cases (rest : list ascii) :
  delimited rest = true ->
  rest = [] \/ exists c r, rest = c :: r /\ (c = "," \/ c = "]" \/ c = "}")%char.
Proof.
  destruct rest as [|c r]; [now left|]. cbn. intros H. right. exists c, r. split; [reflexivity|].
  apply orb_true_iff in H as [H|H]; [apply orb_true_iff in H as [H|H]|];
    apply Ascii.eqb_eq in H; auto.
Qed.

Lemma delimited_scan_digits (rest : list ascii) :
  delimited rest = true -> scan_digits rest = ([], rest).
Proof.
  intros H. apply delimited_cases in H as [->|(c & r & -> & [->|[->| ->]])]; reflexivity.
Qed.

Lemma delimited_not_float (rest : list ascii) :
  delimited rest = true -> float_follows rest = false.
Proof.
  intros H. apply delimited_cases in H as [->|(c & r & -> & [->|[->| ->]])];
    [reflexivity | destruct r; reflexivity ..].
Qed.


Lemma scan_digits_cons (c : ascii) (s : list ascii) :
  is_digit c = true ->
  scan_digits (c :: s) = let '(ds, rest) := scan_digits s in (c :: ds, rest).
Proof. intros H. cbn [scan_digits]. now rewrite H. Qed.

Lemma scan_digits_of (d : Decimal.uint) (rest : list ascii) :
  delimited rest = true -> scan_digits (digits_of d ++ rest) = (digits_of d, rest).
Proof.
  intros H. unfold digits_of, chars.
  induction d; cbn [NilEmpty.string_of_uint list_ascii_of_string app];
    [now apply delimited_scan_digits | ..];
    rewrite scan_digits_cons by reflexivity; now rewrite IHd.
Qed.

Lemma to_uint_normal (p : positive) : Decimal.unorm (Pos.to_uint p) = Pos.to_uint p.
Proof.
  rewrite <- DecimalPos.Unsigned.to_of, DecimalPos.Unsigned.of_to. reflexivity.
Qed.

Lemma to_uint_head (p : positive) (d : Decimal.uint) : Pos.to_uint p <> Decimal.D0 d.
Proof.
  intros E. pose proof (to_uint_normal p) as N. rewrite E in N.
  unfold Decimal.unorm in N.
  destruct (Decimal.nzhead (Decimal.D0 d)) eqn:Hz; try discriminate N.
  - apply (DecimalPos.Unsigned.to_uint_nonzero p). rewrite E. symmetry. exact N.
  - exact (DecimalFacts.nzhead_nonzero _ _ Hz).
Qed.

Lemma digits_of_cons (c : ascii) (s : string) (rest : list ascii) :
  is_digit c = true -> Ascii.eqb c "0" = false ->
  scan_digits (chars s ++ rest) = (chars s, rest) ->
  scan_intpart (chars (String c s) ++ rest) = Some (chars (String c s), rest).
Proof.
  intros Hd Hz Hs. cbn [chars list_ascii_of_string app]. unfold scan_intpart.
  rewrite Hz, Hd. unfold chars in Hs. rewrite Hs. reflexivity.
Qed.

Lemma scan_intpart_of (p : positive) (rest : list ascii) :
  delimited rest = true ->
  scan_intpart (digits_of (Pos.to_uint p) ++ rest) = Some (digits_of (Pos.to_uint p), rest).
Proof.
  intros H. pose proof (to_uint_head p) as Hh.
  pose proof (DecimalPos.Unsigned.to_uint_nonnil p) as Hn.
  destruct (Pos.to_uint p) as [|d|d|d|d|d|d|d|d|d|d]; try congruence;
    try (exfalso; apply (Hh d); reflexivity);
    unfold digits_of; cbn [NilEmpty.string_of_uint];
    apply digits_of_cons; try reflexivity;
    apply (scan_digits_of d rest H).
Qed.

Lemma of_list_chars (s : string) : string_of_list_ascii (chars s) = s.
Proof. apply string_of_list_ascii_of_string. Qed.

Lemma match_number_int (z : Z) (rest : list ascii) :
  delimited rest = true ->
  match_number (chars (str_of_int z) ++ rest) = Some (PInt z, rest).
Proof.
  intros H. unfold str_of_int.
  assert (Hparse : NilZero.int_of_string (NilZero.string_of_int (Z.to_int z))
                   = Some (Z.to_int z)).
  { apply NilZero.isi; destruct z; cbn; try discriminate;
      intros [= E]; apply (DecimalPos.Unsigned.to_uint_nonnil _ E). }
  pose proof (DecimalZ.of_to z) as Hz.
  destruct z as [|p|p].
  - cbn. rewrite (delimited_not_float rest H). reflexivity.
  - cbn [Z.to_int NilZero.string_of_int] in *.
    assert (Hs : NilZero.string_of_uint (Pos.to_uint p) = NilEmpty.string_of_uint (Pos.to_uint p)).
    { pose proof (DecimalPos.Unsigned.to_uint_nonnil p). now destruct (Pos.to_uint p). }
    rewrite Hs in *. unfold match_number.
    assert (Hd : exists c t, chars (NilEmpty.string_of_uint (Pos.to_uint p)) = c :: t /\ is_digit c = true).
    { pose proof (DecimalPos.Unsigned.to_uint_nonnil p). destruct (Pos.to_uint p); try congruence; cbn; eauto. }
    destruct Hd as (c & t & Ec & Hc).
    rewrite Ec. cbn [app].
    assert (Ascii.eqb c "-" = false) as ->.
    { destruct (Ascii.eqb_spec c "-"%char) as [->|]; [discriminate Hc | reflexivity]. }
    change (c :: t ++ rest) with ((c :: t) ++ rest). rewrite <- Ec.
    fold (digits_of (Pos.to_uint p)). rewrite (scan_intpart_of p rest H).
    rewrite (delimited_not_float rest H). cbn [app]. unfold digits_of.
    rewrite of_list_chars, Hparse, Hz. reflexivity.
  - cbn [Z.to_int NilZero.string_of_int] in *.
    assert (Hs : NilZero.string_of_uint (Pos.to_uint p) = NilEmpty.string_of_uint (Pos.to_uint p)).
    { pose proof (DecimalPos.Unsigned.to_uint_nonnil p). now destruct (Pos.to_uint p). }
    rewrite Hs in *. unfold match_number.
    cbn [chars list_ascii_of_string app]. cbn [Ascii.eqb Bool.eqb].
    fold (chars (NilEmpty.string_of_uint (Pos.to_uint p))).
    fold (digits_of (Pos.to_uint p)). rewrite (scan_intpart_of p rest H).
    rewrite (delimited_not_float rest H).
    change (string_of_list_ascii (["-"%char] ++ digits_of (Pos.to_uint p)))
      with (String "-" (string_of_list_ascii (chars (NilEmpty.string_of_uint (Pos.to_uint p))))).
    rewrite of_list_chars, Hparse, Hz. reflexivity.
Qed.

(** ** Values *)

Lemma value_head_skip_ws (text rest : list ascii) :
  value_head text = true -> skip_ws (text ++ rest) = text ++ rest.
Proof.
  destruct text as [|c t]; [discriminate|]. cbn. intros H.
  apply andb_true_iff in H as [H _]. apply negb_true_iff in H. now rewrite H.
Qed.

Lemma value_head_not_closing (text rest : list ascii) :
  value_head text = true -> strip_prefix ["]"%char] (text ++ rest) = None.
Proof.
  destruct text as [|c t]; [discriminate|]. cbn [value_head app strip_prefix]. intros H.
  apply andb_true_iff in H as [_ H]. apply negb_true_iff in H. now rewrite H.
Qed.

Lemma scan_once_number (fuel : nat) (c : ascii) (s : list ascii) :
  is_digit c = true \/ c = "-"%char ->
  scan_once (S fuel) (c :: s) = match_number (c :: s).
Proof.
  intros [H| ->]; [|reflexivity].
  destruct c as [[] [] [] [] [] [] [] []]; try discriminate H; reflexivity.
Qed.

Lemma int_text_head (z : Z) :
  exists c t, chars (str_of_int z) = c :: t
              /\ (is_digit c = true \/ c = "-"%char).
Proof.
  unfold str_of_int. destruct z as [|p|p]; cbn [Z.to_int NilZero.string_of_int].
  - cbn. eauto.
  - pose proof (DecimalPos.Unsigned.to_uint_nonnil p).
    destruct (Pos.to_uint p); try congruence; cbn; eauto.
  - cbn. eauto.
Qed.

Lemma digit_or_minus_head (c : ascii) (t : list ascii) :
  is_digit c = true \/ c = "-"%char -> value_head (c :: t) = true.
Proof.
  intros [H| ->]; [|reflexivity].
  destruct c as [[] [] [] [] [] [] [] []]; try discriminate H; reflexivity.
Qed.

Lemma reads_back_int (z : Z) : reads_back (PInt z).
Proof.
  exists (chars (str_of_int z)). destruct (int_text_head z) as (c & t & E & Hc).
  repeat split.
  - rewrite E. cbn. lia.
  - rewrite E. now apply digit_or_minus_head.
  - intros fuel rest Hf Hr. destruct fuel as [|fuel]; [cbn in Hf; lia|].
    pose proof (match_number_int z rest Hr) as M. rewrite E in *. cbn [app] in *.
    rewrite scan_once_number by assumption. exact M.
Qed.

Lemma reads_back_str (s : string) : reads_back (PStr s).
Proof.
  exists (json_encode_str s). repeat split.
  - cbn. lia.
  - intros fuel rest Hf Hr. destruct fuel as [|fuel]; [cbn in Hf; lia|].
    unfold json_encode_str. cbn [app scan_once].
    change (Ascii.eqb dquote dquote) with true. cbn match.
    rewrite <- app_assoc. cbn [app]. rewrite scanstring_encoded. reflexivity.
Qed.

(** ** Lists *)

Lemma items_size_cons (x : pyval) (items : list pyval) :
  items_size (x :: items) = S (size x) + items_size items.
Proof. reflexivity. Qed.

Lemma JSONArray_last (fuel : nat) (s rest : list ascii) (v : pyval) :
  scan_once fuel s = Some (v, "]"%char :: rest) ->
  JSONArray (S fuel) s = Some ([v], rest).
Proof. intros H. cbn [JSONArray]. rewrite H. reflexivity. Qed.

Lemma JSONArray_more (fuel : nat) (s r rest : list ascii) (v : pyval)
    (vs : list pyval) :
  scan_once fuel s = Some (v, ","%char :: " "%char :: r) ->
  JSONArray fuel (skip_ws r) = Some (vs, rest) ->
  JSONArray (S fuel) s = Some (v :: vs, rest).
Proof.
  intros H1 H2. cbn [JSONArray]. rewrite H1.
  change (skip_ws (","%char :: " "%char :: r)) with (","%char :: " "%char :: r).
  cbv iota. change (Ascii.eqb "," "]") with false. change (Ascii.eqb "," ",") with true.
  cbv iota. change (skip_ws (" "%char :: r)) with (skip_ws r). rewrite H2. reflexivity.
Qed.

Lemma array_reads_back (items : list pyval) :
  Forall (fun v => json_value v = true -> reads_back v) items ->
  forallb json_value items = true ->
  items <> [] ->
  exists body,
    json_encode_items json_encode items = Return body
    /\ items_size items <= S (List.length body)
    /\ value_head body = true
    /\ forall fuel rest,
         items_size items <= fuel ->
         JSONArray fuel (body ++ "]"%char :: rest) = Some (items, rest).
Proof.
  induction items as [|x items IH]; intros HF Hv Hne; [congruence|].
  apply Forall_cons_iff in HF as [Hx HF].
  cbn [forallb] in Hv. apply andb_true_iff in Hv as [Hvx Hv].
  destruct (Hx Hvx) as (tx & Ex & Lx & Hdx & Rx).
  rewrite items_size_cons.
  destruct items as [|y items].
  - exists tx. cbn [json_encode_items]. repeat split; try assumption.
    + cbn. lia.
    + intros fuel rest Hf. cbn in Hf.
      destruct fuel as [|fuel]; [lia|].
      apply JSONArray_last, Rx; [lia | reflexivity].
  - destruct (IH HF Hv ltac:(discriminate)) as (body & Eb & Lb & Hdb & Rb).
    exists (tx ++ chars ", " ++ body).
    change (json_encode_items json_encode (x :: y :: items)) with
      (a <~ json_encode x ;; b <~ json_encode_items json_encode (y :: items) ;;
       Return (a ++ chars ", " ++ b)).
    rewrite Ex. cbn [result_bind]. rewrite Eb. cbn [result_bind].
    repeat split.
    + rewrite !length_app. cbn [chars list_ascii_of_string List.length]. lia.
    + destruct tx; [discriminate Hdx | exact Hdx].
    + intros fuel rest Hf.
      destruct fuel as [|fuel]; [lia|].
      rewrite <- !app_assoc. cbn [chars list_ascii_of_string app].
      eapply JSONArray_more.
      * apply Rx; [lia | reflexivity].
      * rewrite (value_head_skip_ws body _ Hdb). apply Rb. lia.
Qed.

(** ** Dicts *)

Lemma pairs_size_cons (kv : string * pyval) (items : list (string * pyval)) :
  pairs_size (kv :: items) = S (size (snd kv)) + pairs_size items.
Proof. reflexivity. Qed.

Lemma JSONObject_key (fuel : nat) (key : string) (tail : list ascii) :
  JSONObject (S fuel) (json_encode_str key ++ chars ": " ++ tail) =
    match scan_once fuel (skip_ws tail) with
    | Some (value, r3) =>
        match skip_ws r3 with
        | c :: r4 =>
            if Ascii.eqb c "}" then Some ([(key, value)], r4)
            else if Ascii.eqb c "," then
              match JSONObject fuel (skip_ws r4) with
              | Some (pairs, rest) => Some ((key, value) :: pairs, rest)
              | None => None
              end
            else None
        | [] => None
        end
    | None => None
    end.
Proof.
  cbn [JSONObject]. unfold json_encode_str. cbn [app strip_prefix].
  change (Ascii.eqb dquote dquote) with true. cbv iota.
  rewrite <- app_assoc. cbn [app]. rewrite scanstring_encoded.
  reflexivity.
Qed.

Lemma JSONObject_last (fuel : nat) (key : string) (tv rest : list ascii) (v : pyval) :
  value_head tv = true ->
  scan_once fuel (tv ++ "}"%char :: rest) = Some (v, "}"%char :: rest) ->
  JSONObject (S fuel) ((json_encode_str key ++ chars ": " ++ tv) ++ "}"%char :: rest)
    = Some ([(key, v)], rest).
Proof.
  intros Hd H. rewrite <- !app_assoc. rewrite JSONObject_key.
  rewrite (value_head_skip_ws tv _ Hd), H. reflexivity.
Qed.

Lemma JSONObject_more (fuel : nat) (key : string) (tv r rest : list ascii)
    (v : pyval) (pairs : list (string * pyval)) :
  value_head tv = true ->
  scan_once fuel (tv ++ ","%char :: " "%char :: r)
    = Some (v, ","%char :: " "%char :: r) ->
  JSONObject fuel (skip_ws r) = Some (pairs, rest) ->
  JSONObject (S fuel) ((json_encode_str key ++ chars ": " ++ tv)
                         ++ ","%char :: " "%char :: r)
    = Some ((key, v) :: pairs, rest).
Proof.
  intros Hd H1 H2. rewrite <- !app_assoc. rewrite JSONObject_key.
  rewrite (value_head_skip_ws tv _ Hd), H1.
  change (skip_ws (","%char :: " "%char :: r)) with (","%char :: " "%char :: r).
  cbv iota. change (Ascii.eqb "," "}") with false. change (Ascii.eqb "," ",") with true.
  cbv iota. change (skip_ws (" "%char :: r)) with (skip_ws r). rewrite H2. reflexivity.
Qed.

Lemma object_reads_back (items : list (string * pyval)) :
  Forall (fun kv => json_value (snd kv) = true -> reads_back (snd kv)) items ->
  forallb (fun kv => json_value (snd kv)) items = true ->
  items <> [] ->
  exists body,
    json_encode_items encode_pair items = Return body
    /\ pairs_size items <= S (List.length body)
    /\ (exists t, body = dquote :: t)
    /\ forall fuel rest,
         pairs_size items <= fuel ->
         JSONObject fuel (body ++ "}"%char :: rest) = Some (items, rest).
Proof.
  induction items as [|[k x] items IH]; intros HF Hv Hne; [congruence|].
  apply Forall_cons_iff in HF as [Hx HF]. cbn [snd] in Hx.
  cbn [forallb snd] in Hv. apply andb_true_iff in Hv as [Hvx Hv].
  destruct (Hx Hvx) as (tx & Ex & Lx & Hdx & Rx).
  rewrite pairs_size_cons. cbn [snd].
  assert (Ep : encode_pair (k, x) = Return (json_encode_str k ++ chars ": " ++ tx)).
  { unfold encode_pair. cbn [fst snd]. rewrite Ex. reflexivity. }
  destruct items as [|y items].
  - exists (json_encode_str k ++ chars ": " ++ tx). cbn [json_encode_items].
    repeat split; try assumption.
    + rewrite !length_app. cbn. lia.
    + unfold json_encode_str. cbn [app]. eauto.
    + intros fuel rest Hf. cbn in Hf.
      destruct fuel as [|fuel]; [lia|].
      apply JSONObject_last; [assumption|]. apply Rx; [lia | reflexivity].
  - destruct (IH HF Hv ltac:(discriminate)) as (body & Eb & Lb & (t & Hdb) & Rb).
    exists ((json_encode_str k ++ chars ": " ++ tx) ++ chars ", " ++ body).
    change (json_encode_items encode_pair ((k, x) :: y :: items)) with
      (a <~ encode_pair (k, x) ;; b <~ json_encode_items encode_pair (y :: items) ;;
       Return (a ++ chars ", " ++ b)).
    rewrite Ep. cbn [result_bind]. rewrite Eb. cbn [result_bind].
    repeat split.
    + rewrite !length_app. cbn [chars list_ascii_of_string List.length]. lia.
    + unfold json_encode_str. cbn [app]. eauto.
    + intros fuel rest Hf.
      destruct fuel as [|fuel]; [lia|].
      rewrite <- (app_assoc (json_encode_str k ++ chars ": " ++ tx)).
      rewrite <- (app_assoc (chars ", ")).
      cbn [chars list_ascii_of_string app].
      eapply JSONObject_more; [assumption | apply Rx; [lia | reflexivity] |].
      assert (Hs : skip_ws (body ++ "}"%char :: rest) = body ++ "}"%char :: rest).
      { rewrite Hdb. reflexivity. }
      rewrite Hs. apply Rb. lia.
Qed.

(** [dict(pairs)] is [pairs] itself when no key comes twice. *)
Lemma dict_set_fresh {A : Type} (d : list (string * A)) (k : string) (v : A) :
  existsb (String.eqb k) (List.map fst d) = false ->
  dict_set d k v = d ++ [(k, v)].
Proof.
  induction d as [|[k' v'] d IH]; [reflexivity|]. cbn.
  intros H. apply orb_false_iff in H as [H1 H2]. rewrite H1, IH by assumption.
  reflexivity.
Qed.

Lemma distinct_app_fresh (ks : list string) (k : string) (rest : list string) :
  distinct (ks ++ k :: rest) = true ->
  existsb (String.eqb k) ks = false /\ distinct ((ks ++ [k]) ++ rest) = true.
Proof.
  rewrite <- app_assoc. cbn [app]. split; [|assumption].
  induction ks as [|a ks IH]; [reflexivity|]. cbn in H |- *.
  apply andb_true_iff in H as [Ha Hks]. rewrite (IH Hks), orb_false_r.
  apply negb_true_iff in Ha. rewrite existsb_app in Ha.
  apply orb_false_iff in Ha as [_ Ha]. cbn in Ha. apply orb_false_iff in Ha as [Ha _].
  rewrite String.eqb_sym. exact Ha.
Qed.

Lemma dict_of_pairs_from {A : Type} (pairs acc : list (string * A)) :
  distinct (List.map fst (acc ++ pairs)) = true ->
  fold_left (fun d kv => dict_set d (fst kv) (snd kv)) pairs acc = acc ++ pairs.
Proof.
  revert acc. induction pairs as [|[k v] pairs IH]; intros acc H.
  - cbn. now rewrite List.app_nil_r.
  - cbn [fold_left fst snd]. rewrite map_app in H. cbn [List.map fst] in H.
    apply distinct_app_fresh in H as [Hk Hd].
    rewrite (dict_set_fresh acc k v Hk). rewrite IH.
    + now rewrite <- app_assoc.
    + rewrite !map_app. exact Hd.
Qed.

Lemma dict_of_pairs_distinct {A : Type} (pairs : list (string * A)) :
  distinct (List.map fst pairs) = true -> dict_of_pairs pairs = pairs.
Proof. intros H. unfold dict_of_pairs. now rewrite dict_of_pairs_from. Qed.

Lemma scan_once_array (fuel : nat) (body r rest : list ascii) (items : list pyval) :
  value_head body = true ->
  JSONArray fuel (body ++ r) = Some (items, rest) ->
  scan_once (S fuel) ("["%char :: body ++ r) = Some (PList items, rest).
Proof.
  intros Hd H. cbn [scan_once].
  change (Ascii.eqb "[" dquote) with false. change (Ascii.eqb "[" "{") with false.
  change (Ascii.eqb "[" "[") with true. cbv iota.
  rewrite (value_head_skip_ws body r Hd), (value_head_not_closing body r Hd), H.
  reflexivity.
Qed.

Lemma scan_once_object (fuel : nat) (t r rest : list ascii)
    (pairs : list (string * pyval)) :
  JSONObject fuel ((dquote :: t) ++ r) = Some (pairs, rest) ->
  scan_once (S fuel) ("{"%char :: (dquote :: t) ++ r)
    = Some (PDict (dict_of_pairs pairs), rest).
Proof.
  intros H. cbn [scan_once].
  change (Ascii.eqb "{" dquote) with false. change (Ascii.eqb "{" "{") with true.
  cbv iota. change (skip_ws ((dquote :: t) ++ r)) with ((dquote :: t) ++ r).
  change (strip_prefix ["}"%char] ((dquote :: t) ++ r)) with (@None (list ascii)).
  cbv iota. rewrite H. reflexivity.
Qed.

(** ** Every JSON value is read back *)

Theorem json_value_reads_back (v : pyval) : json_value v = true -> reads_back v.
Proof.
  induction v as [| b | z | s | bs | o | items IH | items IH] using pyval_nested_ind;
    intros Hv; try discriminate Hv.
  - exists (chars "null"). repeat split; [cbn; lia|].
    intros [|fuel] rest Hf _; [cbn in Hf; lia | reflexivity].
  - destruct b; [exists (chars "true") | exists (chars "false")];
      (repeat split; [cbn; lia|]);
      intros [|fuel] rest Hf _; (cbn in Hf; lia) || reflexivity.
  - apply reads_back_int.
  - apply reads_back_str.
  - cbn [json_value] in Hv. destruct items as [|x items].
    + exists (chars "[]"). repeat split; [cbn; lia|].
      intros [|fuel] rest Hf _; [cbn in Hf; lia | reflexivity].
    + destruct (array_reads_back (x :: items) IH Hv ltac:(discriminate))
        as (body & Eb & Lb & Hdb & Rb).
      exists (chars "[" ++ body ++ chars "]"). cbn [json_encode]. rewrite Eb.
      repeat split.
      * change (size (PList (x :: items))) with (S (items_size (x :: items))).
        rewrite !length_app. cbn [chars list_ascii_of_string List.length]. lia.
      * intros fuel rest Hf _.
        change (size (PList (x :: items))) with (S (items_size (x :: items))) in Hf.
        destruct fuel as [|fuel]; [lia|].
        cbn [chars list_ascii_of_string app]. rewrite <- app_assoc. cbn [app].
        apply scan_once_array; [assumption|]. apply Rb. lia.
  - cbn [json_value] in Hv. apply andb_true_iff in Hv as [Hk Hv].
    destruct items as [|kv items].
    + exists (chars "{}"). repeat split; [cbn; lia|].
      intros [|fuel] rest Hf _; [cbn in Hf; lia | reflexivity].
    + destruct (object_reads_back (kv :: items) IH Hv ltac:(discriminate))
        as (body & Eb & Lb & (t & Hdb) & Rb).
      exists (chars "{" ++ body ++ chars "}"). cbn [json_encode].
      fold encode_pair. rewrite Eb.
      repeat split.
      * change (size (PDict (kv :: items))) with (S (pairs_size (kv :: items))).
        rewrite !length_app. cbn [chars list_ascii_of_string List.length]. lia.
      * intros fuel rest Hf _.
        change (size (PDict (kv :: items))) with (S (pairs_size (kv :: items))) in Hf.
        destruct fuel as [|fuel]; [lia|].
        cbn [chars list_ascii_of_string app]. rewrite <- app_assoc. cbn [app].
        rewrite Hdb in *.
        rewrite <- (dict_of_pairs_distinct (kv :: items) Hk).
        apply scan_once_object. apply Rb. lia.
Qed.

(** [json.loads(json.dumps(v)) == v], and [json.dumps] does not raise. *)
Theorem json_loads_dumps (v : pyval) :
  json_value v = true ->
  exists s, json_dumps v = Return s /\ json_loads s = Return v.
Proof.
  intros Hv. destruct (json_value_reads_back v Hv) as (text & Et & Lt & Hd & R).
  exists (string_of_list_ascii text). unfold json_dumps. rewrite Et. split; [reflexivity|].
  unfold json_loads, chars. rewrite list_ascii_of_string_of_list_ascii.
  pose proof (value_head_skip_ws text [] Hd) as Hs. rewrite List.app_nil_r in Hs.
  rewrite Hs. specialize (R (S (List.length text)) [] ltac:(lia) eq_refl).
  rewrite List.app_nil_r in R. rewrite R. reflexivity.
Qed.

(** * The HTTP error *)

Local Open Scope string_scope.

Section HttpInit.
Variable serializer : Serializer.
Variable status_code : option Z.
Variable reason : option string.

Lemma nonempty_truthy (b : bytes) : b <> [] -> py_bool (PBytes b) = true.
Proof. destruct b; [congruence | reflexivity]. Qed.

Lemma nonempty_not_blank (b : bytes) :
  b <> [] -> DaprHttpError.is_None_or_empty (Some b) = false.
Proof. destruct b; [congruence | reflexivity]. Qed.

Lemma blank_cases (raw : option bytes) :
  DaprHttpError.is_None_or_empty raw = true -> raw = None \/ raw = Some [].
Proof. destruct raw as [[|x b]|]; cbn; intros H; auto; discriminate. Qed.

Lemma eq_int_spec (n : Z) :
  DaprHttpError.eq_int status_code n = true <-> status_code = Some n.
Proof.
  destruct status_code as [z|]; cbn; [|split; discriminate].
  rewrite Z.eqb_eq. split; [now intros -> | now intros [= ->]].
Qed.

(** The first branch of [__init__]: no body and status 404. *)
Lemma init_not_found (raw : option bytes) :
  DaprHttpError.is_None_or_empty raw = true ->
  status_code = Some 404%Z ->
  DaprHttpError.__init__ serializer raw status_code reason =
    ([], Return (http_error (PStr "HTTP status code: 404") (PStr "ERR_DOES_NOT_EXIST")
                   None status_code reason)).
Proof. intros H ->. apply blank_cases in H as [-> | ->]; reflexivity. Qed.

(** Neither branch: no body and another status. *)
Lemma init_no_body (raw : option bytes) :
  DaprHttpError.is_None_or_empty raw = true ->
  status_code <> Some 404%Z ->
  DaprHttpError.__init__ serializer raw status_code reason =
    ([], Return (http_error (PStr (http_status_text status_code)) (PStr "UNKNOWN")
                   raw status_code reason)).
Proof.
  intros H Hs. unfold DaprHttpError.__init__.
  assert (DaprHttpError.eq_int status_code 404 = false) as ->.
  { destruct (DaprHttpError.eq_int status_code 404) eqn:E; [|reflexivity].
    apply eq_int_spec in E. contradiction. }
  rewrite andb_false_r. apply blank_cases in H as [-> | ->]; reflexivity.
Qed.

(** The second branch: a body, handed to the deserializer once. *)
Lemma init_deserialize (b : bytes) :
  b <> [] ->
  DaprHttpError.__init__ serializer (Some b) status_code reason =
    match deserialize serializer b with
    | Raise exn =>
        if isinstance_Exception exn then
          ([b], Return (http_error (PStr (http_status_text status_code)) (PStr "UNKNOWN")
                          (Some b) status_code reason))
        else ([b], Raise exn)
    | Return (PDict (kv :: d)) =>
        ([b], Return (http_error
                        (py_or (dict_get (kv :: d) "message")
                           (PStr (http_status_text status_code)))
                        (py_or (dict_get (kv :: d) "errorCode") (PStr "UNKNOWN"))
                        (Some b) status_code reason))
    | Return _ =>
        ([b], Return (http_error (PStr (http_status_text status_code)) (PStr "UNKNOWN")
                        (Some b) status_code reason))
    end.
Proof.
  intros Hb. unfold DaprHttpError.__init__.
  rewrite (nonempty_not_blank b Hb). cbn [andb of_opt_bytes].
  rewrite (nonempty_truthy b Hb).
  unfold call_deserialize, try_except_Exception.
  destruct (deserialize serializer b) as [v|exn].
  - destruct v as [ |vb|vz|vs|vbs|vl|d|vo]; try reflexivity;
      try (cbn [py_bool isinstance_dict io_bind]; rewrite andb_false_r; reflexivity).
    destruct d; reflexivity.
  - destruct (isinstance_Exception exn); reflexivity.
Qed.

Lemma init_mapping (b : bytes) (d : pydict) :
  b <> [] ->
  deserialize serializer b = Return (PDict d) ->
  DaprHttpError.__init__ serializer (Some b) status_code reason =
    ([b], Return (http_error
                    (py_or (dict_get d "message") (PStr (http_status_text status_code)))
                    (py_or (dict_get d "errorCode") (PStr "UNKNOWN"))
                    (Some b) status_code reason)).
Proof.
  intros Hb Hd. rewrite (init_deserialize b Hb), Hd. destruct d; reflexivity.
Qed.

End HttpInit.

Lemma py_or_truthy (a b : pyval) : py_bool b = true -> py_bool (py_or a b) = true.
Proof. intros H. unfold py_or. destruct (py_bool a) eqn:E; assumption. Qed.

Lemma prefix_append (a b : string) : String.prefix a (a ++ b) = true.
Proof.
  induction a as [|c a IH]; cbn; [now destruct b|].
  destruct (Ascii.ascii_dec c c); [exact IH | congruence].
Qed.

Lemma str_includes_append (a b : string) : str_includes a (a ++ b) = true.
Proof.
  pose proof (prefix_append a b) as H.
  destruct (a ++ b); cbn [str_includes]; rewrite H; reflexivity.
Qed.

Lemma last_char_append (a b : string) :
  b <> EmptyString -> last_char (a ++ b) = last_char b.
Proof.
  intros Hb. induction a as [|c a IH]; [reflexivity|].
  cbn [append last_char]. rewrite <- IH. destruct (a ++ b) eqn:E; [|reflexivity].
  destruct a; cbn in E; [congruence | discriminate].
Qed.

Lemma str_append_assoc (a b c : string) : (a ++ b) ++ c = a ++ (b ++ c).
Proof. induction a as [|x a IH]; cbn; [reflexivity | now rewrite IH]. Qed.

(** C1.  A [DaprHttpError] built with status 404 and a body that is [None]
    or empty has error code [ERR_DOES_NOT_EXIST], message
    [HTTP status code: 404] and no raw bytes; the log of deserializer calls
    is empty, so the deserializer was not consulted. *)
Theorem http_not_found_empty_body (serializer : Serializer) (raw : option bytes)
    (reason : option string) :
  raw = None \/ raw = Some [] ->
  DaprHttpError.__init__ serializer raw (Some 404%Z) reason =
    ([], Return (http_error (PStr "HTTP status code: 404") (PStr "ERR_DOES_NOT_EXIST")
                   None (Some 404%Z) reason)).
Proof.
  intros H. apply init_not_found; [|reflexivity].
  destruct H as [-> | ->]; reflexivity.
Qed.

Lemma http_not_found_empty_body_witness :
  DaprHttpError.__init__ (mkSerializer (fun _ => Raise (PyException "ValueError")))
    (Some []) (Some 404%Z) (Some "Not Found") =
    ([], Return (http_error (PStr "HTTP status code: 404") (PStr "ERR_DOES_NOT_EXIST")
                   None (Some 404%Z) (Some "Not Found"))).
Proof. apply http_not_found_empty_body. right. reflexivity. Defined.

(** C2, counterexample.  A deserializer that raises [KeyboardInterrupt],
    which is no instance of [Exception], on a body that is not empty: the
    handler does not catch it and construction raises it, where the
    specification promises an error object for any exception. *)
Lemma http_interrupt_not_swallowed :
  let serializer :=
    mkSerializer (fun _ => Raise (PyBaseException "KeyboardInterrupt")) in
  a_body <> []
  /\ deserialize serializer a_body = Raise (PyBaseException "KeyboardInterrupt")
  /\ DaprHttpError.__init__ serializer (Some a_body) (Some 500%Z) None
     = ([a_body], Raise (PyBaseException "KeyboardInterrupt"))
  /\ ~ (exists e,
          outcome (DaprHttpError.__init__ serializer (Some a_body) (Some 500%Z) None)
          = Return e).
Proof.
  split; [discriminate|]. split; [reflexivity|]. split; [reflexivity|].
  intros [e He]. discriminate He.
Qed.

(** C2, amended.  When the body is not empty and the deserializer raises an
    exception that is an instance of [Exception], which is what the handler
    catches, construction returns an error with code [UNKNOWN], the status
    text as message and the bytes it was given; the deserializer was called
    once, with those bytes. *)
Theorem http_deserialize_failure_swallowed (serializer : Serializer) (b : bytes)
    (status_code : option Z) (reason : option string) (exn : pyexc) :
  b <> [] ->
  deserialize serializer b = Raise exn ->
  isinstance_Exception exn = true ->
  DaprHttpError.__init__ serializer (Some b) status_code reason =
    ([b], Return (http_error (PStr (http_status_text status_code)) (PStr "UNKNOWN")
                    (Some b) status_code reason)).
Proof.
  intros Hb Hd He. rewrite (init_deserialize _ _ _ b Hb), Hd, He. reflexivity.
Qed.

Lemma http_deserialize_failure_swallowed_witness :
  DaprHttpError.__init__ (mkSerializer (fun _ => Raise (PyException "JSONDecodeError")))
    (Some a_body) (Some 502%Z) None =
    ([a_body], Return (http_error (PStr "HTTP status code: 502") (PStr "UNKNOWN")
                         (Some a_body) (Some 502%Z) None)).
Proof.
  apply (http_deserialize_failure_swallowed _ a_body (Some 502%Z) None
           (PyException "JSONDecodeError"));
    [discriminate | reflexivity | reflexivity].
Defined.

(** C10.  With the empty byte string as body and a status other than 404
    (or no status), the deserializer is not called, the error code is
    [UNKNOWN], the message is the status text, and the raw bytes stay the
    empty byte string. *)
Theorem http_empty_body_kept (serializer : Serializer) (status_code : option Z)
    (reason : option string) :
  status_code <> Some 404%Z ->
  DaprHttpError.__init__ serializer (Some []) status_code reason =
    ([], Return (http_error (PStr (http_status_text status_code)) (PStr "UNKNOWN")
                   (Some []) status_code reason)).
Proof. intros Hs. now apply init_no_body. Qed.

Lemma http_empty_body_kept_witness :
  DaprHttpError.__init__ (mkSerializer (fun _ => Return PNone)) (Some []) None None =
    ([], Return (http_error (PStr "HTTP status code: None") (PStr "UNKNOWN")
                   (Some []) None None)).
Proof. apply (http_empty_body_kept _ None None). discriminate. Defined.

(** C4, counterexample.  A body that deserializes to a mapping whose
    message is the empty string: the error's message is the status text,
    not the empty string that the specification promises. *)
Lemma http_falsy_message_falls_back :
  let d := [("message", PStr EmptyString); ("errorCode", PStr "ERR_DB")] in
  let serializer := mkSerializer (fun _ => Return (PDict d)) in
  exists e,
    DaprHttpError.__init__ serializer (Some a_body) (Some 500%Z) None = ([a_body], Return e)
    /\ DaprHttpError.message e = PStr "HTTP status code: 500"
    /\ spec_message_of_mapping (dict_get d "message") (Some 500%Z) = PStr EmptyString
    /\ DaprHttpError.message e <> spec_message_of_mapping (dict_get d "message") (Some 500%Z).
Proof.
  eexists. split; [reflexivity|]. split; [reflexivity|]. split; [reflexivity|].
  discriminate.
Qed.

(** C4, amended.  When the body is not empty and deserializes to a mapping,
    the message is the mapping's [message] if that is truthy and the status
    text otherwise (absent, [None], empty, zero); the error code is the
    mapping's [errorCode] if that is truthy and [UNKNOWN] otherwise.  The
    bytes, status code and reason are stored as given. *)
Theorem http_mapping_fields (serializer : Serializer) (b : bytes)
    (status_code : option Z) (reason : option string) (d : pydict) :
  b <> [] ->
  deserialize serializer b = Return (PDict d) ->
  exists e,
    DaprHttpError.__init__ serializer (Some b) status_code reason = ([b], Return e)
    /\ DaprHttpError.message e =
         (if py_bool (dict_get d "message") then dict_get d "message"
          else PStr (http_status_text status_code))
    /\ DaprHttpError.error_code e =
         (if py_bool (dict_get d "errorCode") then dict_get d "errorCode"
          else PStr "UNKNOWN")
    /\ DaprHttpError.raw_response_bytes e = Some b
    /\ DaprHttpError.status_code e = status_code
    /\ DaprHttpError.reason e = reason.
Proof.
  intros Hb Hd. rewrite (init_mapping _ _ _ b d Hb Hd).
  eexists. split; [reflexivity|]. repeat split.
Qed.

Lemma http_mapping_fields_witness :
  let d := [("message", PStr "db down"); ("errorCode", PStr "ERR_DB")] in
  let serializer := mkSerializer (fun _ => Return (PDict d)) in
  exists e,
    DaprHttpError.__init__ serializer (Some a_body) (Some 500%Z) None = ([a_body], Return e)
    /\ DaprHttpError.message e = PStr "db down"
    /\ DaprHttpError.error_code e = PStr "ERR_DB"
    /\ DaprHttpError.raw_response_bytes e = Some a_body
    /\ DaprHttpError.status_code e = Some 500%Z
    /\ DaprHttpError.reason e = None.
Proof.
  intros d serializer.
  apply (http_mapping_fields serializer a_body (Some 500%Z) None d);
    [discriminate | reflexivity].
Defined.

(** C6, counterexample.  A body that deserializes to a mapping with a
    message and no error code: the message was derived from the body, and
    yet the rendering is the unknown text, which does not include it. *)
Lemma http_unknown_text_drops_message :
  let d := [("message", PStr "db down")] in
  let serializer := mkSerializer (fun _ => Return (PDict d)) in
  exists e,
    DaprHttpError.__init__ serializer (Some a_body) (Some 500%Z) None = ([a_body], Return e)
    /\ DaprHttpError.message e = dict_get d "message"
    /\ DaprHttpError.error_code e = PStr "UNKNOWN"
    /\ DaprHttpError.__str__ e = "Unknown Dapr Error. HTTP status code: 500."
    /\ str_includes "db down" (DaprHttpError.__str__ e) = false.
Proof.
  eexists. split; [reflexivity|]. repeat split.
Qed.

(** C6, amended.  The unknown text is rendered exactly when the error code
    equals [UNKNOWN], whether or not a message was derived from the body;
    with any other error code the rendering is the message followed by the
    error code and the status code, so it includes the message. *)
Theorem http_str_rendering (e : DaprHttpError.t) :
  (DaprHttpError.__str__ e = unknown_http_text (DaprHttpError.status_code e)
   <-> py_eq_str (DaprHttpError.error_code e) "UNKNOWN" = true)
  /\ (py_eq_str (DaprHttpError.error_code e) "UNKNOWN" = false ->
      DaprHttpError.__str__ e =
        py_str (DaprHttpError.message e) ++ " (Error Code: "
          ++ py_str (DaprHttpError.error_code e) ++ ", Status Code: "
          ++ py_str (of_opt_int (DaprHttpError.status_code e)) ++ ")"
      /\ str_includes (py_str (DaprHttpError.message e)) (DaprHttpError.__str__ e) = true).
Proof.
  unfold DaprHttpError.__str__, py_ne_str, unknown_http_text, ERROR_CODE_UNKNOWN,
    DaprHttpError.status_code.
  destruct (py_eq_str (DaprHttpError.error_code e) "UNKNOWN") eqn:E; cbn [negb].
  - split; [tauto | discriminate].
  - split.
    + split; [|discriminate]. intros H. apply (f_equal last_char) in H.
      rewrite <- !str_append_assoc in H.
      rewrite (last_char_append _ ")") in H by discriminate.
      rewrite (last_char_append _ ".") in H by discriminate.
      discriminate H.
    + intros _. split; [reflexivity | apply str_includes_append].
Qed.

(** C7, counterexample.  [DaprInternalError('boom', None)] has error code
    [None], and [DaprInternalError('boom', '')] the empty string. *)
Lemma internal_error_code_may_be_none :
  DaprInternalError.error_code
    (DaprInternalError.__init__ (PStr "boom") (Some PNone) None) = PNone
  /\ DaprInternalError.error_code
       (DaprInternalError.__init__ (PStr "boom") (Some (PStr EmptyString)) None)
     = PStr EmptyString
  /\ py_bool PNone = false
  /\ py_bool (PStr EmptyString) = false.
Proof. repeat split. Qed.

(** C7, amended.  A [DaprInternalError] built without an error code has
    [UNKNOWN]; one built with an error code stores it as given.  A
    [DaprHttpError] always has a truthy error code: [UNKNOWN], or
    [ERR_DOES_NOT_EXIST] for status 404 without a body, or the truthy
    [errorCode] of the mapping the body deserialized to. *)
Theorem error_code_classification :
  (forall message raw,
      DaprInternalError.error_code (DaprInternalError.__init__ message None raw)
      = PStr "UNKNOWN")
  /\ (forall message code raw,
         DaprInternalError.error_code (DaprInternalError.__init__ message (Some code) raw)
         = code)
  /\ (forall serializer raw status_code reason e,
         outcome (DaprHttpError.__init__ serializer raw status_code reason) = Return e ->
         py_bool (DaprHttpError.error_code e) = true
         /\ (DaprHttpError.error_code e = PStr "UNKNOWN"
             \/ (DaprHttpError.error_code e = PStr "ERR_DOES_NOT_EXIST"
                 /\ DaprHttpError.is_None_or_empty raw = true
                 /\ status_code = Some 404%Z)
             \/ (exists b d,
                    raw = Some b
                    /\ deserialize serializer b = Return (PDict d)
                    /\ py_bool (dict_get d "errorCode") = true
                    /\ DaprHttpError.error_code e = dict_get d "errorCode"))).
Proof.
  split; [reflexivity|]. split; [reflexivity|].
  intros serializer raw status_code reason e.
  destruct (DaprHttpError.is_None_or_empty raw) eqn:Eb.
  - destruct (DaprHttpError.eq_int status_code 404) eqn:E4.
    + apply eq_int_spec in E4. rewrite (init_not_found _ _ _ raw Eb E4).
      intros [= <-]. split; [reflexivity|]. right. left. now repeat split.
    + rewrite (init_no_body _ _ _ raw Eb).
      * intros [= <-]. split; [reflexivity | now left].
      * intros H. apply eq_int_spec in H. congruence.
  - destruct raw as [b|]; [|discriminate Eb].
    assert (Hb : b <> []) by (intros ->; discriminate Eb).
    rewrite (init_deserialize _ _ _ b Hb).
    destruct (deserialize serializer b) as [v|exn] eqn:Ed.
    + destruct v as [ |vb|vz|vs|vbs|vl|d|vo];
        try (intros [= <-]; split; [reflexivity | now left]).
      destruct d as [|kv d]; [intros [= <-]; split; [reflexivity | now left]|].
      intros [= <-].
      change (DaprHttpError.error_code (http_error _ ?c _ _ _)) with c.
      split; [apply py_or_truthy; reflexivity|].
      unfold py_or. destruct (py_bool (dict_get (kv :: d) "errorCode")) eqn:Ec.
      * right. right. exists b, (kv :: d). now repeat split.
      * now left.
    + destruct (isinstance_Exception exn); [|discriminate].
      intros [= <-]. split; [reflexivity | now left].
Qed.

Lemma error_code_classification_witness :
  let e := http_error (PStr "HTTP status code: 404") (PStr "ERR_DOES_NOT_EXIST")
             None (Some 404%Z) None in
  py_bool (DaprHttpError.error_code e) = true
  /\ (DaprHttpError.error_code e = PStr "UNKNOWN"
      \/ (DaprHttpError.error_code e = PStr "ERR_DOES_NOT_EXIST"
          /\ DaprHttpError.is_None_or_empty None = true
          /\ Some 404%Z = Some 404%Z)
      \/ (exists b d,
             None = Some b
             /\ deserialize (mkSerializer (fun _ => Return PNone)) b = Return (PDict d)
             /\ py_bool (dict_get d "errorCode") = true
             /\ DaprHttpError.error_code e = dict_get d "errorCode")).
Proof.
  apply (proj2 (proj2 error_code_classification)
           (mkSerializer (fun _ => Return PNone)) None (Some 404%Z) None).
  reflexivity.
Defined.

(** * The gRPC error *)

(** ** Attribute dictionaries *)

Lemma dict_lookup_set_same {A : Type} (d : list (string * A)) (k : string) (v : A) :
  dict_lookup (dict_set d k v) k = Some v.
Proof.
  induction d as [|[k' v'] d IH]; cbn.
  - now rewrite String.eqb_refl.
  - destruct (String.eqb k k') eqn:E; cbn; rewrite E; [reflexivity | exact IH].
Qed.

Lemma dict_lookup_set_other {A : Type} (d : list (string * A)) (k k' : string) (v : A) :
  k <> k' -> dict_lookup (dict_set d k v) k' = dict_lookup d k'.
Proof.
  intros Hk. induction d as [|[k0 v0] d IH]; cbn.
  - apply String.eqb_neq in Hk. now rewrite String.eqb_sym, Hk.
  - destruct (String.eqb k k0) eqn:E; cbn.
    + destruct (String.eqb k' k0) eqn:E'; [|reflexivity].
      apply String.eqb_eq in E, E'. congruence.
    + now rewrite IH.
Qed.

Lemma dict_keys_set_present {A : Type} (d : list (string * A)) (k : string) (v : A) :
  In k (dict_keys d) -> dict_keys (dict_set d k v) = dict_keys d.
Proof.
  induction d as [|[k0 v0] d IH]; cbn; [tauto|].
  intros H. destruct (String.eqb k k0) eqn:E; cbn; [reflexivity|].
  f_equal. apply IH. destruct H as [H|H]; [|exact H].
  apply String.eqb_neq in E. congruence.
Qed.

Lemma dict_values_set {A : Type} (P : A -> Prop) (d : list (string * A))
    (k : string) (v : A) :
  Forall P (List.map snd d) -> P v -> Forall P (List.map snd (dict_set d k v)).
Proof.
  intros Hd Hv. induction d as [|[k0 v0] d IH]; cbn.
  - now constructor.
  - cbn in Hd. apply Forall_cons_iff in Hd as [H0 Hd].
    destruct (String.eqb k k0); cbn; constructor; auto.
Qed.

(** ** [serialize_status_detail] and the body of the loop *)

Lemma serialize_status_detail_eq (detail : Any.t) :
  serialize_status_detail detail =
    match MessageToDict detail with
    | Return fields => Return (PDict fields)
    | Raise exn => Raise exn
    end.
Proof.
  unfold serialize_status_detail. cbn [Any.__bool__ negb].
  destruct (MessageToDict detail); reflexivity.
Qed.

Lemma Is_exclusive (detail : Any.t) (a b : string) :
  Any.Is detail a = true -> Any.Is detail b = true -> a = b.
Proof.
  unfold Any.Is. intros Ha Hb.
  apply andb_true_iff in Ha as [_ Ha]. apply andb_true_iff in Hb as [_ Hb].
  apply String.eqb_eq in Ha, Hb. congruence.
Qed.

Ltac two_kinds :=
  match goal with
  | H1 : Any.Is ?d ?a = true, H2 : Any.Is ?d ?b = true |- _ =>
      exfalso; pose proof (Is_exclusive d a b H1 H2) as Habs; discriminate Habs
  end.

Ltac each_detail_kind :=
  unfold DaprGrpcError.parse_detail;
  repeat match goal with
         | |- context [if Any.Is ?d ?n then _ else _] => destruct (Any.Is d n) eqn:?
         end.

(** A detail of one of the ten types: its conversion is assigned to the
    attribute of the type. *)
Lemma parse_detail_known (self : StatusDetails.t) (detail : Any.t)
    (attr full_name : string) :
  In (attr, full_name) detail_kinds ->
  Any.Is detail full_name = true ->
  DaprGrpcError.parse_detail self detail =
    match MessageToDict detail with
    | Return fields => Return (StatusDetails.setattr self attr (PDict fields))
    | Raise exn => Raise exn
    end.
Proof.
  intros Hin His. cbn in Hin.
  repeat (destruct Hin as [[= <- <-] | Hin]); try contradiction;
    each_detail_kind; try two_kinds; try congruence;
    rewrite serialize_status_detail_eq; destruct (MessageToDict detail); reflexivity.
Qed.

(** A detail of another type: nothing is converted, nothing assigned. *)
Lemma parse_detail_unknown (self : StatusDetails.t) (detail : Any.t) :
  known_kind detail = false -> DaprGrpcError.parse_detail self detail = Return self.
Proof.
  unfold known_kind, detail_kinds. cbn [existsb snd]. intros H.
  repeat (apply orb_false_iff in H as [?H H]).
  unfold DaprGrpcError.parse_detail.
  repeat match goal with
         | Hk : Any.Is detail ?n = false |- _ => rewrite Hk; clear Hk
         end.
  reflexivity.
Qed.

Lemma known_kind_true (detail : Any.t) :
  known_kind detail = true ->
  exists attr full_name,
    In (attr, full_name) detail_kinds /\ Any.Is detail full_name = true.
Proof.
  unfold known_kind. intros H. apply existsb_exists in H as ([attr full_name] & Hin & His).
  now exists attr, full_name.
Qed.

Lemma known_kind_false (detail : Any.t) (attr full_name : string) :
  known_kind detail = false -> In (attr, full_name) detail_kinds ->
  Any.Is detail full_name = false.
Proof.
  unfold known_kind. intros H Hin.
  destruct (Any.Is detail full_name) eqn:E; [|reflexivity].
  rewrite <- H. symmetry. apply existsb_exists. now exists (attr, full_name).
Qed.

(** Each type has its own attribute. *)
Lemma detail_kinds_attr (attr attr' full_name full_name' : string) :
  In (attr, full_name) detail_kinds -> In (attr', full_name') detail_kinds ->
  (attr = attr' <-> full_name = full_name').
Proof.
  intros H H'. cbn in H, H'.
  repeat (destruct H as [[= <- <-] | H]); try contradiction;
    repeat (destruct H' as [[= <- <-] | H']); try contradiction;
    split; intros E; first [reflexivity | discriminate E].
Qed.

Lemma kind_field (attr full_name : string) :
  In (attr, full_name) detail_kinds -> In attr StatusDetails.field_names.
Proof.
  intros H. cbn in H.
  repeat (destruct H as [[= <- <-] | H]); try contradiction; cbn; tauto.
Qed.

Lemma field_kind (attr : string) :
  In attr StatusDetails.field_names -> exists full_name, In (attr, full_name) detail_kinds.
Proof.
  intros Hin. cbn in Hin.
  repeat (destruct Hin as [<- | Hin]); try contradiction;
    eexists; cbn; repeat (try (left; reflexivity); right).
Qed.

Lemma init_lookup (attr full_name : string) :
  In (attr, full_name) detail_kinds ->
  dict_lookup StatusDetails.__init__ attr = Some PNone.
Proof.
  intros Hin. cbn in Hin.
  repeat (destruct Hin as [[= <- <-] | Hin]); try contradiction; reflexivity.
Qed.

(** What one round of the loop does to an attribute. *)
Lemma parse_detail_lookup (self self' : StatusDetails.t) (detail : Any.t)
    (attr full_name : string) :
  In (attr, full_name) detail_kinds ->
  DaprGrpcError.parse_detail self detail = Return self' ->
  if Any.Is detail full_name
  then exists fields,
         MessageToDict detail = Return fields
         /\ dict_lookup self' attr = Some (PDict fields)
  else dict_lookup self' attr = dict_lookup self attr.
Proof.
  intros Hin Hp. destruct (known_kind detail) eqn:Ek.
  - destruct (known_kind_true detail Ek) as (attr' & full_name' & Hin' & His').
    rewrite (parse_detail_known self detail attr' full_name' Hin' His') in Hp.
    destruct (MessageToDict detail) as [fields|exn]; [|discriminate Hp].
    injection Hp as <-. unfold StatusDetails.setattr.
    destruct (Any.Is detail full_name) eqn:His.
    + pose proof (Is_exclusive detail _ _ His His') as <-.
      pose proof (proj2 (detail_kinds_attr _ _ _ _ Hin Hin') eq_refl) as <-.
      exists fields. split; [reflexivity | apply dict_lookup_set_same].
    + apply dict_lookup_set_other. intros <-.
      pose proof (proj1 (detail_kinds_attr _ _ _ _ Hin Hin') eq_refl) as <-.
      congruence.
  - rewrite (parse_detail_unknown self detail Ek) in Hp. injection Hp as <-.
    now rewrite (known_kind_false detail attr full_name Ek Hin).
Qed.

(** ** The loop of [_parse_details] *)

(** After the loop an attribute holds the conversion of the last detail of
    its type, and what it held before when there is none. *)
Lemma for_each_detail_lookup (details : list Any.t) (self self' : StatusDetails.t)
    (attr full_name : string) :
  In (attr, full_name) detail_kinds ->
  DaprGrpcError.for_each_detail details self = Return self' ->
  match last_detail full_name details with
  | Some detail =>
      exists fields,
        MessageToDict detail = Return fields
        /\ dict_lookup self' attr = Some (PDict fields)
  | None => dict_lookup self' attr = dict_lookup self attr
  end.
Proof.
  intros Hin. revert self.
  induction details as [|detail details IH]; intros self Hl.
  - injection Hl as <-. reflexivity.
  - cbn [DaprGrpcError.for_each_detail] in Hl.
    destruct (DaprGrpcError.parse_detail self detail) as [self1|exn] eqn:Hp;
      [|discriminate Hl].
    cbn [result_bind] in Hl. specialize (IH self1 Hl). cbn [last_detail].
    destruct (last_detail full_name details) as [later|]; [exact IH|].
    pose proof (parse_detail_lookup self self1 detail attr full_name Hin Hp) as H1.
    destruct (Any.Is detail full_name).
    + destruct H1 as (fields & Hm & H1). exists fields. split; [exact Hm|].
      now rewrite IH.
    + now rewrite IH.
Qed.

(** The loop raises what [MessageToDict] raises on the first detail of a
    known type that it does not convert, and returns when there is none. *)
Lemma for_each_detail_outcome (details : list Any.t) (self : StatusDetails.t) :
  match first_unconvertible details with
  | Some exn => DaprGrpcError.for_each_detail details self = Raise exn
  | None => exists self', DaprGrpcError.for_each_detail details self = Return self'
  end.
Proof.
  revert self. induction details as [|detail details IH]; intros self.
  - now exists self.
  - cbn [first_unconvertible DaprGrpcError.for_each_detail].
    destruct (known_kind detail) eqn:Ek.
    + destruct (known_kind_true detail Ek) as (attr & full_name & Hin & His).
      rewrite (parse_detail_known self detail attr full_name Hin His).
      destruct (MessageToDict detail) as [fields|exn]; [|reflexivity].
      cbn [result_bind]. apply IH.
    + rewrite (parse_detail_unknown self detail Ek). cbn [result_bind]. apply IH.
Qed.


(** ** [_parse_details] keeps the shape of [StatusDetails] *)

Lemma details_shape_init (Q : pydict -> Prop) : details_shape Q StatusDetails.__init__.
Proof. split; [reflexivity|]. repeat constructor. Qed.

Lemma details_shape_setattr (Q : pydict -> Prop) (self : StatusDetails.t)
    (attr : string) (fields : pydict) :
  details_shape Q self -> In attr StatusDetails.field_names -> Q fields ->
  details_shape Q (StatusDetails.setattr self attr (PDict fields)).
Proof.
  intros [Hk Hv] Hin HQ. split.
  - unfold StatusDetails.setattr. rewrite dict_keys_set_present; [exact Hk|].
    now rewrite Hk.
  - apply dict_values_set; [exact Hv|]. right. eexists. split; [reflexivity | exact HQ].
Qed.

Lemma details_shape_parse_detail (Q : pydict -> Prop) (self self' : StatusDetails.t)
    (detail : Any.t) :
  details_shape Q self ->
  DaprGrpcError.parse_detail self detail = Return self' ->
  (forall fields, MessageToDict detail = Return fields -> Q fields) ->
  details_shape Q self'.
Proof.
  intros Hs Hp HQ. destruct (known_kind detail) eqn:Ek.
  - destruct (known_kind_true detail Ek) as (attr & full_name & Hin & His).
    rewrite (parse_detail_known self detail attr full_name Hin His) in Hp.
    destruct (MessageToDict detail) as [fields|exn]; [|discriminate Hp].
    injection Hp as <-.
    apply details_shape_setattr; [exact Hs | exact (kind_field _ _ Hin) | now apply HQ].
  - rewrite (parse_detail_unknown self detail Ek) in Hp. now injection Hp as <-.
Qed.

Lemma details_shape_loop (Q : pydict -> Prop) (details : list Any.t)
    (self self' : StatusDetails.t) :
  details_shape Q self ->
  DaprGrpcError.for_each_detail details self = Return self' ->
  Forall (fun detail => forall fields, MessageToDict detail = Return fields -> Q fields)
    details ->
  details_shape Q self'.
Proof.
  revert self. induction details as [|detail details IH]; intros self Hs Hl HQ.
  - now injection Hl as <-.
  - apply Forall_cons_iff in HQ as [H1 H2]. cbn [DaprGrpcError.for_each_detail] in Hl.
    destruct (DaprGrpcError.parse_detail self detail) as [self1|exn] eqn:Hp;
      [|discriminate Hl].
    cbn [result_bind] in Hl.
    exact (IH self1 (details_shape_parse_detail Q self self1 detail Hs Hp H1) Hl H2).
Qed.

Lemma last_detail_none (full_name : string) (details : list Any.t) :
  Forall (fun detail => Any.Is detail full_name = false) details ->
  last_detail full_name details = None.
Proof.
  induction 1 as [|detail details H _ IH]; [reflexivity|].
  cbn. now rewrite IH, H.
Qed.

(** ** What [__init__] builds *)

Lemma grpc_init_raises (err : RpcError.t) (exn : pyexc) :
  rpc_status.from_call err = Raise exn -> DaprGrpcError.__init__ err = Raise exn.
Proof. intros H. unfold DaprGrpcError.__init__. now rewrite H. Qed.

Lemma grpc_init_no_status (err : RpcError.t) :
  rpc_status.from_call err = Return None ->
  DaprGrpcError.__init__ err =
    Return {| DaprGrpcError._status_code := RpcError.code err;
              DaprGrpcError._err_message := RpcError.details err;
              DaprGrpcError._details := StatusDetails.__init__;
              DaprGrpcError._grpc_status := None |}.
Proof. intros H. unfold DaprGrpcError.__init__. now rewrite H. Qed.

Lemma grpc_init_status (err : RpcError.t) (status : Status.t) :
  rpc_status.from_call err = Return (Some status) ->
  DaprGrpcError.__init__ err =
    match DaprGrpcError.for_each_detail (Status.details status) StatusDetails.__init__ with
    | Return details =>
        Return {| DaprGrpcError._status_code := RpcError.code err;
                  DaprGrpcError._err_message := RpcError.details err;
                  DaprGrpcError._details := details;
                  DaprGrpcError._grpc_status := Some status |}
    | Raise exn => Raise exn
    end.
Proof.
  intros H. unfold DaprGrpcError.__init__. rewrite H. cbn [result_bind].
  unfold DaprGrpcError._parse_details. cbn [DaprGrpcError._grpc_status DaprGrpcError._details].
  destruct (DaprGrpcError.for_each_detail (Status.details status) StatusDetails.__init__);
    reflexivity.
Qed.

Lemma grpc_init_inv (err : RpcError.t) (e : DaprGrpcError.t) :
  DaprGrpcError.__init__ err = Return e ->
  DaprGrpcError.code e = RpcError.code err
  /\ DaprGrpcError.details e = RpcError.details err
  /\ rpc_status.from_call err = Return (DaprGrpcError.get_grpc_status e)
  /\ match DaprGrpcError.get_grpc_status e with
     | Some status =>
         DaprGrpcError.for_each_detail (Status.details status) StatusDetails.__init__
         = Return (DaprGrpcError.status_details e)
     | None => DaprGrpcError.status_details e = StatusDetails.__init__
     end.
Proof.
  destruct (rpc_status.from_call err) as [[status|]|exn] eqn:Hc.
  - rewrite (grpc_init_status err status Hc).
    destruct (DaprGrpcError.for_each_detail (Status.details status) StatusDetails.__init__)
      as [details|exn] eqn:Hl; [|discriminate].
    intros [= <-]. split; [reflexivity|]. split; [reflexivity|].
    split; [reflexivity | exact Hl].
  - rewrite (grpc_init_no_status err Hc). intros [= <-].
    split; [reflexivity|]. split; [reflexivity|]. split; reflexivity.
  - rewrite (grpc_init_raises err exn Hc). discriminate.
Qed.

Lemma grpc_details_shape (Q : pydict -> Prop) (err : RpcError.t) (e : DaprGrpcError.t) :
  DaprGrpcError.__init__ err = Return e ->
  (forall status, DaprGrpcError.get_grpc_status e = Some status ->
                  Forall (fun detail =>
                            forall fields, MessageToDict detail = Return fields -> Q fields)
                    (Status.details status)) ->
  details_shape Q (DaprGrpcError.status_details e).
Proof.
  intros H HQ. apply grpc_init_inv in H as (_ & _ & _ & Hd).
  destruct (DaprGrpcError.get_grpc_status e) as [status|].
  - exact (details_shape_loop Q _ _ _ (details_shape_init Q) Hd (HQ status eq_refl)).
  - rewrite Hd. apply details_shape_init.
Qed.

(** After construction an attribute holds the conversion of the last detail
    of its type, which [MessageToDict] did not refuse, and [None] without
    one. *)
Lemma grpc_kept_detail (err : RpcError.t) (e : DaprGrpcError.t)
    (attr full_name : string) :
  DaprGrpcError.__init__ err = Return e ->
  In (attr, full_name) detail_kinds ->
  exists v,
    kept_detail full_name (DaprGrpcError.get_grpc_status e) = Return v
    /\ StatusDetails.getattr (DaprGrpcError.status_details e) attr = Return v
    /\ (v = PNone \/ exists fields, v = PDict fields).
Proof.
  intros H Hin. apply grpc_init_inv in H as (_ & _ & _ & Hd).
  unfold kept_detail, StatusDetails.getattr.
  destruct (DaprGrpcError.get_grpc_status e) as [status|].
  - pose proof (for_each_detail_lookup _ _ _ _ _ Hin Hd) as Hl.
    destruct (last_detail full_name (Status.details status)) as [detail|].
    + destruct Hl as (fields & Hm & Hl). exists (PDict fields).
      rewrite serialize_status_detail_eq, Hm, Hl. eauto.
    + rewrite Hl, (init_lookup _ _ Hin). exists PNone. auto.
  - rewrite Hd, (init_lookup _ _ Hin). exists PNone. auto.
Qed.

Lemma error_info_kind : In ("error_info", error_details_pb2.ErrorInfo) detail_kinds.
Proof. left. reflexivity. Qed.

Lemma error_code_of_error_info (e : DaprGrpcError.t) (error_info : pyval) :
  StatusDetails.getattr (DaprGrpcError.status_details e) "error_info" = Return error_info ->
  error_info = PNone \/ (exists d, error_info = PDict d) ->
  DaprGrpcError.error_code e =
    Return match error_info with
           | PDict d => dict_get_default d "reason" (PStr "UNKNOWN")
           | _ => PStr "UNKNOWN"
           end.
Proof.
  intros Hg Hs. unfold DaprGrpcError.error_code. cbn [StatusDetails.__bool__ negb].
  rewrite Hg. cbn [result_bind].
  destruct Hs as [-> | [d ->]]; [reflexivity|].
  destruct d as [|kv d]; reflexivity.
Qed.

(** C5.  For the error built from any call: [error_code()] is [UNKNOWN]
    when no structured status was attached, when the status has no detail
    of type [ErrorInfo], and when the [error_info] mapping has no [reason]
    key; the [error_info] attribute is the mapping that [MessageToDict]
    made of the last [ErrorInfo] detail; and when that mapping has a
    [reason] key, [error_code()] is its value. *)
Theorem grpc_error_code_degrades (err : RpcError.t) (e : DaprGrpcError.t) :
  DaprGrpcError.__init__ err = Return e ->
  (DaprGrpcError.get_grpc_status e = None ->
   DaprGrpcError.error_code e = Return (PStr "UNKNOWN"))
  /\ (forall status,
         DaprGrpcError.get_grpc_status e = Some status ->
         Forall (fun detail => Any.Is detail error_details_pb2.ErrorInfo = false)
           (Status.details status) ->
         DaprGrpcError.error_code e = Return (PStr "UNKNOWN"))
  /\ (forall status detail,
         DaprGrpcError.get_grpc_status e = Some status ->
         last_detail error_details_pb2.ErrorInfo (Status.details status) = Some detail ->
         exists fields,
           MessageToDict detail = Return fields
           /\ StatusDetails.getattr (DaprGrpcError.status_details e) "error_info"
              = Return (PDict fields))
  /\ (forall d,
         StatusDetails.getattr (DaprGrpcError.status_details e) "error_info"
         = Return (PDict d) ->
         dict_lookup d "reason" = None ->
         DaprGrpcError.error_code e = Return (PStr "UNKNOWN"))
  /\ (forall d reason,
         StatusDetails.getattr (DaprGrpcError.status_details e) "error_info"
         = Return (PDict d) ->
         dict_lookup d "reason" = Some reason ->
         DaprGrpcError.error_code e = Return reason).
Proof.
  intros H.
  destruct (grpc_kept_detail err e _ _ H error_info_kind) as (v & Hk & Hi & Hv).
  unfold kept_detail in Hk.
  repeat split.
  - intros Hn. rewrite Hn in Hk. injection Hk as <-.
    now rewrite (error_code_of_error_info e PNone) by auto.
  - intros status Hs Hf. rewrite Hs, (last_detail_none _ _ Hf) in Hk. injection Hk as <-.
    now rewrite (error_code_of_error_info e PNone) by auto.
  - intros status detail Hs Hl. rewrite Hs, Hl, serialize_status_detail_eq in Hk.
    destruct (MessageToDict detail) as [fields|exn]; [|discriminate Hk].
    injection Hk as <-. now exists fields.
  - intros d Hg Hr. rewrite (error_code_of_error_info e (PDict d)) by eauto.
    unfold dict_get_default. now rewrite Hr.
  - intros d reason Hg Hr. rewrite (error_code_of_error_info e (PDict d)) by eauto.
    unfold dict_get_default. now rewrite Hr.
Qed.

Lemma grpc_error_code_degrades_witness :
  DaprGrpcError.error_code quota_error = Return (PStr "QUOTA_EXCEEDED").
Proof.
  apply (proj2 (proj2 (proj2 (proj2
           (grpc_error_code_degrades quota_call quota_error eq_refl))))
           quota_fields);
    reflexivity.
Defined.






(** * The JSON-safe dictionary *)

(** The test vectors of RFC 4648, section 10. *)
Example b64encode_rfc4648 :
  List.map (fun data => b64_text data)
    [ []; [x66]; [x66; x6f]; [x66; x6f; x6f]; [x66; x6f; x6f; x62];
      [x66; x6f; x6f; x62; x61]; [x66; x6f; x6f; x62; x61; x72] ]
  = [ EmptyString; "Zg=="; "Zm8="; "Zm9v"; "Zm9vYg=="; "Zm9vYmE="; "Zm9vYmFy" ].
Proof. reflexivity. Qed.

Lemma b64_char_ascii (n : nat) : is_ascii (b64_char n) = true.
Proof. do 64 (destruct n as [|n]; [reflexivity|]). destruct n; reflexivity. Qed.

Lemma b64encode_ascii_upto (n : nat) (data : bytes) :
  List.length data <= n -> forallb is_ascii (b64encode data) = true.
Proof.
  revert data. induction n as [|n IH]; intros data Hlen.
  - destruct data; [reflexivity | cbn in Hlen; lia].
  - destruct data as [|a [|b [|c rest]]]; try reflexivity.
    + cbn [b64encode forallb]. rewrite !b64_char_ascii. reflexivity.
    + cbn [b64encode forallb]. rewrite !b64_char_ascii. reflexivity.
    + cbn [b64encode forallb]. rewrite !b64_char_ascii. cbn [andb].
      apply IH. cbn in Hlen. lia.
Qed.

Lemma b64encode_ascii (data : bytes) : forallb is_ascii (b64encode data) = true.
Proof. apply (b64encode_ascii_upto (List.length data)). lia. Qed.

Lemma decode_utf8_ascii (data : bytes) :
  forallb is_ascii data = true -> decode_utf8 data = Return (text_of_bytes data).
Proof.
  induction data as [|b data IH]; [reflexivity|]. cbn [forallb].
  intros H. apply andb_true_iff in H as [Hb Hd]. cbn [decode_utf8].
  unfold is_ascii in Hb. rewrite Hb, (IH Hd). reflexivity.
Qed.


(** C8.  For a [DaprInternalError] built from a message and an error code
    that are [str] or [None] and raw bytes that are [bytes] or [None]
    (an argument may also be left out): [as_json_safe_dict()] returns a
    mapping that [json.dumps] encodes and [json.loads] reads back
    unchanged.  It is [as_dict()] with the [raw_response_bytes] entry
    replaced by the base64 text of the bytes when they are not [None], and
    [as_dict()] itself otherwise. *)
Theorem json_safe_dict_round_trip (message : option string)
    (error_code : option (option string)) (raw : option (option bytes)) :
  let self :=
    DaprInternalError.__init__ (of_opt_str message) (option_map of_opt_str error_code) raw in
  exists error_dict text,
    DaprInternalError.as_json_safe_dict self = Return error_dict
    /\ json_dumps (PDict error_dict) = Return text
    /\ json_loads text = Return (PDict error_dict)
    /\ error_dict =
         match DaprInternalError.raw_response_bytes self with
         | Some data =>
             dict_set (DaprInternalError.as_dict self) "raw_response_bytes"
               (PStr (b64_text data))
         | None => DaprInternalError.as_dict self
         end
    /\ dict_keys error_dict = dict_keys (DaprInternalError.as_dict self)
    /\ dict_lookup error_dict "message" = Some (DaprInternalError.message self)
    /\ dict_lookup error_dict "errorCode" = Some (DaprInternalError.error_code self)
    /\ dict_lookup error_dict "raw_response_bytes" =
         Some (match DaprInternalError.raw_response_bytes self with
               | Some data => PStr (b64_text data)
               | None => PNone
               end).
Proof.
  intros self.
  assert (Hd : exists error_dict,
             DaprInternalError.as_json_safe_dict self = Return error_dict
             /\ error_dict =
                  match DaprInternalError.raw_response_bytes self with
                  | Some data =>
                      dict_set (DaprInternalError.as_dict self) "raw_response_bytes"
                        (PStr (b64_text data))
                  | None => DaprInternalError.as_dict self
                  end).
  { unfold DaprInternalError.as_json_safe_dict, DaprInternalError.as_json_safe_dict_over,
      DaprInternalError.raw_response_bytes.
    destruct (DaprInternalError._raw_response_bytes self) as [data|].
    - rewrite (decode_utf8_ascii _ (b64encode_ascii data)). eexists; split; reflexivity.
    - eexists; split; reflexivity. }
  destruct Hd as (error_dict & Hsafe & Hshape).
  assert (Hj : json_value (PDict error_dict) = true).
  { rewrite Hshape. subst self.
    destruct message, error_code as [[?|]|], raw as [[?|]|]; reflexivity. }
  destruct (json_loads_dumps (PDict error_dict) Hj) as (text & Hdumps & Hloads).
  exists error_dict, text. repeat split; try assumption;
    rewrite Hshape; subst self;
    destruct message, error_code as [[?|]|], raw as [[?|]|]; reflexivity.
Qed.

(** * The JSON rendering of the gRPC error *)

Lemma as_dict_of_shape (Q : pydict -> Prop) (self : StatusDetails.t) :
  details_shape Q self -> StatusDetails.as_dict self = Return self.
Proof.
  intros [Hk _]. unfold dict_keys, StatusDetails.field_names in Hk.
  do 10 (destruct self as [|[? ?] self]; [discriminate Hk|]).
  destruct self; [|discriminate Hk].
  cbn in Hk. injection Hk as -> -> -> -> -> -> -> -> -> ->. reflexivity.
Qed.

Lemma json_value_of_shape (self : StatusDetails.t) :
  details_shape (fun d => json_value (PDict d) = true) self ->
  json_value (PDict self) = true.
Proof.
  intros [Hk Hv]. cbn [json_value]. fold (dict_keys self). rewrite Hk.
  cbn [andb]. change (distinct StatusDetails.field_names) with true. cbn [andb].
  clear Hk. induction self as [|[k v] self IH]; [reflexivity|].
  cbn in Hv. apply Forall_cons_iff in Hv as [H1 H2]. cbn [forallb snd].
  rewrite (IH H2), andb_true_r. destruct H1 as [-> | (d & -> & Hd)]; [reflexivity | exact Hd].
Qed.

Lemma json_value_dict (d : pydict) :
  json_value (PDict d)
  = distinct (List.map fst d) && forallb (fun kv => json_value (snd kv)) d.
Proof. reflexivity. Qed.

Lemma json_value_lookup (d : pydict) (k : string) (default : pyval) :
  json_value (PDict d) = true -> json_value default = true ->
  json_value (dict_get_default d k default) = true.
Proof.
  intros Hd Hdef. cbn [json_value] in Hd. apply andb_true_iff in Hd as [_ Hd].
  unfold dict_get_default. induction d as [|[k' v] d IH]; [exact Hdef|].
  cbn [forallb snd] in Hd. apply andb_true_iff in Hd as [Hv Hd].
  cbn [dict_lookup]. destruct (String.eqb k k'); [exact Hv | exact (IH Hd)].
Qed.

Lemma shape_error_info (Q : pydict -> Prop) (self : StatusDetails.t) :
  details_shape Q self ->
  exists v, StatusDetails.getattr self "error_info" = Return v
            /\ (v = PNone \/ exists d, v = PDict d /\ Q d).
Proof.
  intros [Hk Hv]. unfold dict_keys, StatusDetails.field_names in Hk.
  destruct self as [|[k v] self]; [discriminate Hk|].
  cbn in Hk. injection Hk as -> _. cbn in Hv. apply Forall_cons_iff in Hv as [Hv _].
  exists v. split; [reflexivity | exact Hv].
Qed.

(** C9.  For the error built from a call whose details [MessageToDict]
    turns into JSON values: [json()] returns a text that [json.loads] reads
    as the object with exactly the keys [status_code] (the name of the
    status code), [message] (what [details()] returns), [error_code] (what
    [error_code()] returns) and [details], the mapping of [as_dict()] with
    all ten detail names, unset ones being [None]. *)
Theorem grpc_json_object (err : RpcError.t) (e : DaprGrpcError.t) :
  DaprGrpcError.__init__ err = Return e ->
  json_details (DaprGrpcError.get_grpc_status e) = true ->
  exists text error_code_value details_dict,
    DaprGrpcError.json e = Return text
    /\ DaprGrpcError.error_code e = Return error_code_value
    /\ StatusDetails.as_dict (DaprGrpcError.status_details e) = Return details_dict
    /\ dict_keys details_dict =
         [ "error_info"; "retry_info"; "debug_info"; "quota_failure";
           "precondition_failure"; "bad_request"; "request_info"; "resource_info";
           "help"; "localized_message" ]
    /\ json_loads text =
         Return (PDict
                   [ ("status_code", PStr (StatusCode.name (DaprGrpcError.code e)));
                     ("message", of_opt_str (DaprGrpcError.details e));
                     ("error_code", error_code_value);
                     ("details", PDict details_dict) ]).
Proof.
  intros Hinit Hjson.
  assert (Hshape : details_shape (fun d => json_value (PDict d) = true)
                     (DaprGrpcError.status_details e)).
  { apply (grpc_details_shape _ err e Hinit). intros status Hs.
    rewrite Hs in Hjson. unfold json_details in Hjson.
    apply Forall_forall. intros detail Hin fields Hm.
    pose proof (proj1 (forallb_forall _ _) Hjson detail Hin) as Hd.
    cbv beta in Hd. now rewrite Hm in Hd. }
  destruct (shape_error_info _ _ Hshape) as (v & Hget & Hv).
  assert (Hcode : DaprGrpcError.error_code e =
                    Return match v with
                           | PDict d => dict_get_default d "reason" (PStr "UNKNOWN")
                           | _ => PStr "UNKNOWN"
                           end).
  { apply error_code_of_error_info; [exact Hget|].
    destruct Hv as [-> | (d & -> & _)]; eauto. }
  set (error_code_value := match v with
                           | PDict d => dict_get_default d "reason" (PStr "UNKNOWN")
                           | _ => PStr "UNKNOWN"
                           end) in *.
  assert (Hcv : json_value error_code_value = true).
  { subst error_code_value. destruct Hv as [-> | (d & -> & Hd)]; [reflexivity|].
    now apply json_value_lookup. }
  pose proof (as_dict_of_shape _ _ Hshape) as Hdict.
  pose proof (json_value_of_shape _ Hshape) as Hdv.
  set (payload := PDict
                   [ ("status_code", PStr (StatusCode.name (DaprGrpcError.code e)));
                     ("message", of_opt_str (DaprGrpcError.details e));
                     ("error_code", error_code_value);
                     ("details", PDict (DaprGrpcError.status_details e)) ]).
  assert (Hp : json_value payload = true).
  { subst payload. rewrite json_value_dict.
    cbn [List.map fst snd forallb]. rewrite Hcv, Hdv.
    destruct (DaprGrpcError.details e); reflexivity. }
  destruct (json_loads_dumps payload Hp) as (text & Hdumps & Hloads).
  exists text, error_code_value, (DaprGrpcError.status_details e).
  repeat split; try assumption.
  - unfold DaprGrpcError.json. rewrite Hcode. cbn [result_bind].
    unfold DaprGrpcError.status_details in Hdict. rewrite Hdict. exact Hdumps.
  - exact (proj1 Hshape).
Qed.

Lemma grpc_json_object_witness :
  exists text error_code_value details_dict,
    DaprGrpcError.json quota_error = Return text
    /\ DaprGrpcError.error_code quota_error = Return error_code_value
    /\ StatusDetails.as_dict (DaprGrpcError.status_details quota_error) = Return details_dict
    /\ dict_keys details_dict =
         [ "error_info"; "retry_info"; "debug_info"; "quota_failure";
           "precondition_failure"; "bad_request"; "request_info"; "resource_info";
           "help"; "localized_message" ]
    /\ json_loads text =
         Return (PDict
                   [ ("status_code", PStr "RESOURCE_EXHAUSTED");
                     ("message", PStr "quota exceeded");
                     ("error_code", error_code_value);
                     ("details", PDict details_dict) ]).
Proof.
  apply (grpc_json_object quota_call quota_error); reflexivity.
Defined.

(** * Further properties of the HTTP error *)

(** X1.  [DaprHttpError.__init__] calls the deserializer once, with the body
    it was given, when the body is not empty, and not at all otherwise. *)
Theorem http_deserializer_calls (serializer : Serializer) (raw : option bytes)
    (status_code : option Z) (reason : option string) :
  calls (DaprHttpError.__init__ serializer raw status_code reason) =
    match raw with
    | Some (x :: b) => [x :: b]
    | _ => []
    end.
Proof.
  assert (Hblank : forall r, DaprHttpError.is_None_or_empty r = true ->
                     calls (DaprHttpError.__init__ serializer r status_code reason) = []).
  { intros r Eb. destruct (DaprHttpError.eq_int status_code 404) eqn:E4.
    - apply eq_int_spec in E4. now rewrite (init_not_found _ _ _ r Eb E4).
    - rewrite (init_no_body _ _ _ r Eb); [reflexivity|].
      intros H. apply eq_int_spec in H. congruence. }
  destruct raw as [[|x b]|]; [now apply Hblank | | now apply Hblank].
  rewrite (init_deserialize _ _ _ (x :: b)) by discriminate.
  destruct (deserialize serializer (x :: b)) as [v|exn].
  - destruct v as [ |vb|vz|vs|vbs|vl|d|vo]; try reflexivity. destruct d; reflexivity.
  - destruct (isinstance_Exception exn); reflexivity.
Qed.

(** X2.  An exception of the deserializer that is no instance of
    [Exception] is not swallowed: construction raises it. *)
Theorem http_base_exception_propagates (serializer : Serializer) (b : bytes)
    (status_code : option Z) (reason : option string) (exn : pyexc) :
  b <> [] ->
  deserialize serializer b = Raise exn ->
  isinstance_Exception exn = false ->
  DaprHttpError.__init__ serializer (Some b) status_code reason = ([b], Raise exn).
Proof.
  intros Hb Hd He. rewrite (init_deserialize _ _ _ b Hb), Hd, He. reflexivity.
Qed.

Lemma http_base_exception_propagates_witness :
  DaprHttpError.__init__
    (mkSerializer (fun _ => Raise (PyBaseException "KeyboardInterrupt")))
    (Some a_body) (Some 500%Z) None
  = ([a_body], Raise (PyBaseException "KeyboardInterrupt")).
Proof.
  apply (http_base_exception_propagates _ a_body (Some 500%Z) None
           (PyBaseException "KeyboardInterrupt"));
    [discriminate | reflexivity | reflexivity].
Defined.

(** X3.  A deserializer result that is not a dict, or is the empty dict, is
    ignored: the error has code [UNKNOWN], the status text as message and
    the bytes it was given. *)
Theorem http_non_mapping_result_ignored (serializer : Serializer) (b : bytes)
    (status_code : option Z) (reason : option string) (v : pyval) :
  b <> [] ->
  deserialize serializer b = Return v ->
  isinstance_dict v = false \/ v = PDict [] ->
  DaprHttpError.__init__ serializer (Some b) status_code reason =
    ([b], Return (http_error (PStr (http_status_text status_code)) (PStr "UNKNOWN")
                    (Some b) status_code reason)).
Proof.
  intros Hb Hd Hv. rewrite (init_deserialize _ _ _ b Hb), Hd.
  destruct Hv as [Hv | ->]; [|reflexivity].
  destruct v; try reflexivity; discriminate Hv.
Qed.

Lemma http_non_mapping_result_ignored_witness :
  DaprHttpError.__init__
    (mkSerializer (fun _ => Return (PList [PStr "message"; PStr "errorCode"])))
    (Some a_body) (Some 500%Z) None
  = ([a_body], Return (http_error (PStr "HTTP status code: 500") (PStr "UNKNOWN")
                         (Some a_body) (Some 500%Z) None)).
Proof.
  apply (http_non_mapping_result_ignored _ a_body (Some 500%Z) None
           (PList [PStr "message"; PStr "errorCode"]));
    [discriminate | reflexivity | left; reflexivity].
Defined.

(** The attributes of whatever [__init__] returns. *)
Lemma http_init_inv (serializer : Serializer) (raw : option bytes)
    (status_code : option Z) (reason : option string) (e : DaprHttpError.t) :
  outcome (DaprHttpError.__init__ serializer raw status_code reason) = Return e ->
  exists m c,
    e = http_error (py_or m (PStr (http_status_text status_code))) c
          (if DaprHttpError.is_None_or_empty raw && DaprHttpError.eq_int status_code 404
           then None else raw)
          status_code reason
    /\ ((m = PNone /\ (c = PStr "UNKNOWN" \/ c = PStr "ERR_DOES_NOT_EXIST"))
        \/ exists b d, raw = Some b /\ b <> []
                       /\ deserialize serializer b = Return (PDict d)
                       /\ m = dict_get d "message"
                       /\ c = py_or (dict_get d "errorCode") (PStr "UNKNOWN")).
Proof.
  destruct (DaprHttpError.is_None_or_empty raw) eqn:Eb.
  - destruct (DaprHttpError.eq_int status_code 404) eqn:E4; cbn [andb].
    + pose proof E4 as E4'. apply eq_int_spec in E4'.
      rewrite (init_not_found _ _ _ raw Eb E4'). intros [= <-].
      exists PNone, (PStr "ERR_DOES_NOT_EXIST"). rewrite E4'. split; [reflexivity | auto].
    + rewrite (init_no_body _ _ _ raw Eb).
      * intros [= <-]. exists PNone, (PStr "UNKNOWN"). split; [reflexivity | auto].
      * intros H. apply eq_int_spec in H. congruence.
  - cbn [andb]. destruct raw as [b|]; [|discriminate Eb].
    assert (Hb : b <> []) by (intros ->; discriminate Eb).
    rewrite (init_deserialize _ _ _ b Hb).
    destruct (deserialize serializer b) as [v|exn] eqn:Ed.
    + destruct v as [ |vb|vz|vs|vbs|vl|d|vo];
        try (intros [= <-]; exists PNone, (PStr "UNKNOWN"); split; [reflexivity | auto]).
      destruct d as [|kv d];
        [intros [= <-]; exists PNone, (PStr "UNKNOWN"); split; [reflexivity | auto]|].
      intros [= <-]. eexists _, _. split; [reflexivity|]. right.
      exists b, (kv :: d). repeat split; assumption.
    + destruct (isinstance_Exception exn); [|discriminate].
      intros [= <-]. exists PNone, (PStr "UNKNOWN"). split; [reflexivity | auto].
Qed.

(** X4.  The message of a constructed [DaprHttpError] is never [None] or
    empty: it is truthy. *)
Theorem http_message_never_empty (serializer : Serializer) (raw : option bytes)
    (status_code : option Z) (reason : option string) (e : DaprHttpError.t) :
  outcome (DaprHttpError.__init__ serializer raw status_code reason) = Return e ->
  py_bool (DaprHttpError.message e) = true.
Proof.
  intros H. apply http_init_inv in H as (m & c & -> & _).
  change (py_bool (py_or m (PStr (http_status_text status_code))) = true).
  apply py_or_truthy. reflexivity.
Qed.

Lemma http_message_never_empty_witness :
  py_bool (DaprHttpError.message
             (http_error (PStr "HTTP status code: None") (PStr "UNKNOWN") None None None))
  = true.
Proof.
  apply (http_message_never_empty (mkSerializer (fun _ => Return PNone)) None None None).
  reflexivity.
Defined.

(** X5.  A constructed [DaprHttpError] stores the status code and the reason it
    was given, and the body as well, except that status 404 with a [None]
    or empty body stores [None]. *)
Theorem http_attributes_stored (serializer : Serializer) (raw : option bytes)
    (status_code : option Z) (reason : option string) (e : DaprHttpError.t) :
  outcome (DaprHttpError.__init__ serializer raw status_code reason) = Return e ->
  DaprHttpError.status_code e = status_code
  /\ DaprHttpError.reason e = reason
  /\ DaprHttpError.raw_response_bytes e =
       (if DaprHttpError.is_None_or_empty raw && DaprHttpError.eq_int status_code 404
        then None else raw).
Proof.
  intros H. apply http_init_inv in H as (m & c & -> & _). repeat split.
Qed.

Lemma http_attributes_stored_witness :
  let e := http_error (PStr "HTTP status code: 404") (PStr "ERR_DOES_NOT_EXIST") None
             (Some 404%Z) (Some "Not Found") in
  DaprHttpError.status_code e = Some 404%Z
  /\ DaprHttpError.reason e = Some "Not Found"
  /\ DaprHttpError.raw_response_bytes e = None.
Proof.
  apply (http_attributes_stored (mkSerializer (fun _ => Return PNone)) (Some [])
           (Some 404%Z) (Some "Not Found")).
  reflexivity.
Defined.

(** X6.  With a body that is not empty the status code plays no part in the
    error code, 404 included: the code is the truthy [errorCode] of the
    mapping the body deserializes to, and [UNKNOWN] in every other case. *)
Theorem http_body_error_code (serializer : Serializer) (b : bytes)
    (status_code : option Z) (reason : option string) (e : DaprHttpError.t) :
  b <> [] ->
  outcome (DaprHttpError.__init__ serializer (Some b) status_code reason) = Return e ->
  DaprHttpError.error_code e =
    match deserialize serializer b with
    | Return (PDict d) => py_or (dict_get d "errorCode") (PStr "UNKNOWN")
    | _ => PStr "UNKNOWN"
    end.
Proof.
  intros Hb. rewrite (init_deserialize _ _ _ b Hb).
  destruct (deserialize serializer b) as [v|exn].
  - destruct v as [ |vb|vz|vs|vbs|vl|d|vo]; try (intros [= <-]; reflexivity).
    destruct d; intros [= <-]; reflexivity.
  - destruct (isinstance_Exception exn); [|discriminate]. intros [= <-]. reflexivity.
Qed.

Lemma http_body_error_code_witness :
  DaprHttpError.error_code
    (http_error (PStr "HTTP status code: 404") (PStr "UNKNOWN") (Some a_body)
       (Some 404%Z) None)
  = PStr "UNKNOWN".
Proof.
  apply (http_body_error_code (mkSerializer (fun _ => Return PNone)) a_body
           (Some 404%Z) None);
    [discriminate | reflexivity].
Defined.

Lemma json_safe_dict_over (self_as_dict : pydict) (self : DaprInternalError.t) :
  DaprInternalError.as_json_safe_dict_over self_as_dict self =
    Return match DaprInternalError.raw_response_bytes self with
           | Some data => dict_set self_as_dict "raw_response_bytes" (PStr (b64_text data))
           | None => self_as_dict
           end.
Proof.
  unfold DaprInternalError.as_json_safe_dict_over, DaprInternalError.raw_response_bytes.
  destruct (DaprInternalError._raw_response_bytes self) as [data|]; [|reflexivity].
  now rewrite (decode_utf8_ascii _ (b64encode_ascii data)).
Qed.

Lemma json_value_py_or (a b : pyval) :
  json_value a = true -> json_value b = true -> json_value (py_or a b) = true.
Proof. intros Ha Hb. unfold py_or. now destruct (py_bool a). Qed.

Lemma json_value_safe_bytes (raw : option bytes) : json_value (safe_bytes raw) = true.
Proof. now destruct raw. Qed.

(** X7.  [as_json_safe_dict()] of a [DaprHttpError] goes through the
    overridden [as_dict()]: it has the five entries, the bytes as base64
    text.  When the deserializer returns JSON values, [json.dumps] encodes
    the dictionary of a constructed error and [json.loads] reads it back
    unchanged. *)
Theorem http_json_safe_dict_round_trip (serializer : Serializer) (raw : option bytes)
    (status_code : option Z) (reason : option string) (e : DaprHttpError.t) :
  json_serializer serializer ->
  outcome (DaprHttpError.__init__ serializer raw status_code reason) = Return e ->
  exists error_dict text,
    DaprHttpError.as_json_safe_dict e = Return error_dict
    /\ error_dict =
         [ ("message", DaprHttpError.message e);
           ("errorCode", DaprHttpError.error_code e);
           ("raw_response_bytes", safe_bytes (DaprHttpError.raw_response_bytes e));
           ("status_code", of_opt_int status_code);
           ("reason", of_opt_str reason) ]
    /\ json_dumps (PDict error_dict) = Return text
    /\ json_loads text = Return (PDict error_dict).
Proof.
  intros Hser H. apply http_init_inv in H as (m & c & -> & Hmc).
  set (raw' := if DaprHttpError.is_None_or_empty raw && DaprHttpError.eq_int status_code 404
               then None else raw).
  set (M := py_or m (PStr (http_status_text status_code))).
  assert (HM : json_value M = true /\ json_value c = true).
  { subst M. destruct Hmc as [[-> [-> | ->]] | (b & d & _ & _ & Hd & -> & ->)];
      try (split; reflexivity).
    apply Hser in Hd. split; apply json_value_py_or; try reflexivity;
      apply (json_value_lookup d _ PNone Hd); reflexivity. }
  destruct HM as [HM Hc].
  set (error_dict := [ ("message", M); ("errorCode", c);
                       ("raw_response_bytes", safe_bytes raw');
                       ("status_code", of_opt_int status_code);
                       ("reason", of_opt_str reason) ]).
  assert (Hj : json_value (PDict error_dict) = true).
  { subst error_dict. rewrite json_value_dict. cbn [List.map fst snd forallb].
    rewrite HM, Hc, json_value_safe_bytes.
    destruct status_code, reason; reflexivity. }
  destruct (json_loads_dumps _ Hj) as (text & Hdumps & Hloads).
  exists error_dict, text. repeat split; try assumption.
  unfold DaprHttpError.as_json_safe_dict. rewrite json_safe_dict_over.
  subst error_dict. unfold http_error, DaprInternalError.raw_response_bytes.
  cbn [DaprHttpError.super DaprInternalError._raw_response_bytes].
  destruct raw'; reflexivity.
Qed.

Lemma http_json_safe_dict_round_trip_witness :
  let d := [("message", PStr "db down"); ("errorCode", PStr "ERR_DB")] in
  let e := http_error (PStr "db down") (PStr "ERR_DB") (Some a_body) (Some 500%Z) None in
  exists error_dict text,
    DaprHttpError.as_json_safe_dict e = Return error_dict
    /\ error_dict =
         [ ("message", DaprHttpError.message e);
           ("errorCode", DaprHttpError.error_code e);
           ("raw_response_bytes", safe_bytes (DaprHttpError.raw_response_bytes e));
           ("status_code", of_opt_int (Some 500%Z));
           ("reason", of_opt_str None) ]
    /\ json_dumps (PDict error_dict) = Return text
    /\ json_loads text = Return (PDict error_dict).
Proof.
  intros d e.
  apply (http_json_safe_dict_round_trip (mkSerializer (fun _ => Return (PDict d)))
           (Some a_body) (Some 500%Z) None e).
  - intros data v [= <-]. reflexivity.
  - reflexivity.
Defined.

(** [json.dumps] raises nothing but [TypeError]. *)
Lemma json_encode_items_raises {A : Type} (encode : A -> result (list ascii))
    (items : list A) (exn : pyexc) :
  Forall (fun x => forall exn, encode x = Raise exn -> exn = PyException "TypeError")
    items ->
  json_encode_items encode items = Raise exn -> exn = PyException "TypeError".
Proof.
  induction 1 as [|x items Hx _ IH]; [discriminate|].
  destruct items as [|y items]; [apply Hx|].
  change (json_encode_items encode (x :: y :: items)) with
    (a <~ encode x ;; b <~ json_encode_items encode (y :: items) ;;
     Return (a ++ chars ", " ++ b)%list).
  destruct (encode x) as [a|e1] eqn:E1; cbn [result_bind].
  - destruct (json_encode_items encode (y :: items)) as [b|e2]; cbn [result_bind];
      [discriminate|]. intros [= <-]. now apply IH.
  - intros [= <-]. now apply Hx.
Qed.

Lemma json_encode_raises (v : pyval) (exn : pyexc) :
  json_encode v = Raise exn -> exn = PyException "TypeError".
Proof.
  revert exn.
  induction v as [| b | z | s | bs | o | items IH | items IH] using pyval_nested_ind;
    intros exn; cbn [json_encode]; try discriminate; try (now intros [= <-]).
  - destruct b; discriminate.
  - destruct (json_encode_items json_encode items) as [body|e] eqn:E; cbn [result_bind];
      [discriminate|]. intros [= <-]. exact (json_encode_items_raises _ _ _ IH E).
  - fold encode_pair.
    destruct (json_encode_items encode_pair items) as [body|e] eqn:E; cbn [result_bind];
      [discriminate|]. intros [= <-].
    apply (json_encode_items_raises _ _ _ (A := string * pyval)) in E; [exact E|].
    apply Forall_forall. intros [k x] Hin e'. unfold encode_pair. cbn [fst snd].
    destruct (json_encode x) as [tx|e2] eqn:Ex; cbn [result_bind]; [discriminate|].
    intros [= <-]. rewrite Forall_forall in IH. exact (IH (k, x) Hin e2 Ex).
Qed.

(** X8.  [as_dict()] keeps the raw bytes as bytes: when they are not
    [None], [json.dumps] of [as_dict()] raises [TypeError], whatever the
    message and the error code are. *)
Theorem as_dict_with_bytes_not_json (self : DaprInternalError.t) (data : bytes) :
  DaprInternalError.raw_response_bytes self = Some data ->
  json_dumps (PDict (DaprInternalError.as_dict self)) = Raise (PyException "TypeError").
Proof.
  intros Hraw. unfold DaprInternalError.raw_response_bytes in Hraw.
  destruct (json_dumps (PDict (DaprInternalError.as_dict self))) as [text|exn] eqn:E.
  - exfalso. unfold json_dumps, DaprInternalError.as_dict in E. rewrite Hraw in E.
    cbn [json_encode of_opt_bytes] in E. fold encode_pair in E.
    cbn [json_encode_items] in E. unfold encode_pair at 1 2 in E. cbn [fst snd] in E.
    destruct (json_encode (DaprInternalError._message self)); cbn [result_bind] in E;
      [|discriminate E].
    destruct (json_encode (DaprInternalError._error_code self)); cbn [result_bind] in E;
      discriminate E.
  - f_equal. unfold json_dumps in E.
    destruct (json_encode (PDict (DaprInternalError.as_dict self))) as [t|exn'] eqn:E';
      cbn [result_bind] in E; [discriminate E|].
    injection E as <-. exact (json_encode_raises _ _ E').
Qed.

Lemma as_dict_with_bytes_not_json_witness :
  json_dumps (PDict (DaprInternalError.as_dict
                       (DaprInternalError.__init__ (PStr "boom") None (Some (Some a_body)))))
  = Raise (PyException "TypeError").
Proof.
  apply (as_dict_with_bytes_not_json _ a_body). reflexivity.
Defined.

(** * Renderings *)

Lemma str_includes_app_r (needle a hay : string) :
  str_includes needle hay = true -> str_includes needle (a ++ hay) = true.
Proof.
  intros H. induction a as [|c a IH]; [exact H|].
  cbn [append str_includes]. rewrite IH. apply orb_true_r.
Qed.

(** X9.  [str()] of a [DaprHttpError] always includes the status code, as
    Python prints it ([None] for no status code). *)
Theorem http_str_names_status_code (e : DaprHttpError.t) :
  str_includes (py_str (of_opt_int (DaprHttpError.status_code e)))
    (DaprHttpError.__str__ e) = true.
Proof.
  unfold DaprHttpError.__str__, DaprHttpError.status_code.
  destruct (py_ne_str (DaprHttpError.error_code e) ERROR_CODE_UNKNOWN).
  - do 4 apply str_includes_app_r. apply str_includes_append.
  - apply str_includes_app_r. apply str_includes_append.
Qed.

Lemma append_nonempty (a b : string) : a <> EmptyString -> a ++ b <> EmptyString.
Proof. destruct a; [congruence | discriminate]. Qed.

(** X10.  [str()] of a [DaprInternalError] whose message is a [str] or
    [None] returns a text that is not empty: the pair of message and error
    code when the code is not [UNKNOWN], else the message if it is not empty,
    else [Unknown Dapr Error.]. *)
Theorem internal_str_never_empty (message : option string) (error_code : pyval)
    (raw : option bytes) :
  let self := DaprInternalError.mk (of_opt_str message) error_code raw in
  exists text,
    DaprInternalError.__str__ self = Return text
    /\ text <> EmptyString
    /\ text =
         if py_ne_str error_code "UNKNOWN" then
           "('" ++ py_str (of_opt_str message) ++ "', '" ++ py_str error_code ++ "')"
         else
           match message with
           | Some (String c s) => String c s
           | _ => "Unknown Dapr Error."
           end.
Proof.
  intros self. unfold DaprInternalError.__str__, self, ERROR_CODE_UNKNOWN.
  cbn [DaprInternalError._message DaprInternalError._error_code].
  destruct (py_ne_str error_code "UNKNOWN").
  - eexists. split; [reflexivity|]. split; [discriminate | reflexivity].
  - destruct message as [[|c s]|]; eexists; (split; [reflexivity|]);
      (split; [discriminate | reflexivity]).
Qed.

(** X11.  [str()] of a [DaprInternalError] raises [TypeError] exactly when
    the error code is [UNKNOWN] and the message is truthy and no [str]:
    [__str__] then hands the message itself back. *)
Theorem internal_str_type_error (self : DaprInternalError.t) :
  DaprInternalError.__str__ self = Raise (PyException "TypeError")
  <-> (py_eq_str (DaprInternalError.error_code self) "UNKNOWN" = true
       /\ py_bool (DaprInternalError.message self) = true
       /\ forall s, DaprInternalError.message self <> PStr s).
Proof.
  unfold DaprInternalError.__str__, py_ne_str, DaprInternalError.error_code,
    DaprInternalError.message, ERROR_CODE_UNKNOWN, py_or.
  destruct (py_eq_str (DaprInternalError._error_code self) "UNKNOWN"); cbn [negb].
  - destruct (py_bool (DaprInternalError._message self)) eqn:Eb.
    + destruct (DaprInternalError._message self) as [ |vb|vz|vs|vbs|vl|d|vo];
        (split; [intros H; try discriminate H; repeat split; discriminate
                | intros (_ & _ & H); try reflexivity; exfalso; eapply H; reflexivity]).
    + split; [discriminate | intros (_ & H & _); discriminate H].
  - split; [discriminate | intros (H & _); discriminate H].
Qed.

(** * Further properties of the gRPC error *)

(** X12.  After construction each of the ten attributes of
    [status_details()] holds the mapping of the last detail of its own
    type, and [None] when the status has no detail of that type or there is
    no status. *)
Theorem grpc_details_keep_last_of_kind (err : RpcError.t) (e : DaprGrpcError.t)
    (attr full_name : string) :
  DaprGrpcError.__init__ err = Return e ->
  In (attr, full_name) detail_kinds ->
  exists v,
    kept_detail full_name (DaprGrpcError.get_grpc_status e) = Return v
    /\ StatusDetails.getattr (DaprGrpcError.status_details e) attr = Return v.
Proof.
  intros H Hin. destruct (grpc_kept_detail err e attr full_name H Hin) as (v & Hk & Hg & _).
  now exists v.
Qed.

Lemma grpc_details_keep_last_of_kind_witness :
  StatusDetails.getattr (DaprGrpcError.status_details busy_error) "error_info"
  = Return (PDict quota_fields).
Proof.
  destruct (grpc_details_keep_last_of_kind busy_call busy_error "error_info"
              error_details_pb2.ErrorInfo eq_refl (or_introl eq_refl))
    as (v & Hk & Hg).
  injection Hk as <-. exact Hg.
Defined.

(** X13.  Details of other types than the ten are skipped: when the status
    holds no detail of a known type, [status_details()] is as
    [StatusDetails()] made it, every attribute [None]. *)
Theorem grpc_unknown_details_skipped (err : RpcError.t) (e : DaprGrpcError.t)
    (status : Status.t) :
  DaprGrpcError.__init__ err = Return e ->
  DaprGrpcError.get_grpc_status e = Some status ->
  List.forallb (fun detail => negb (known_kind detail)) (Status.details status) = true ->
  DaprGrpcError.status_details e = StatusDetails.__init__.
Proof.
  intros H Hs Hf. apply grpc_init_inv in H as (_ & _ & _ & Hd). rewrite Hs in Hd.
  revert Hd. generalize StatusDetails.__init__ as self.
  induction (Status.details status) as [|detail details IH]; intros self Hd.
  - now injection Hd.
  - cbn [forallb] in Hf. apply andb_true_iff in Hf as [Hk Hf].
    apply negb_true_iff in Hk. cbn [DaprGrpcError.for_each_detail] in Hd.
    rewrite (parse_detail_unknown self detail Hk) in Hd. now apply IH.
Qed.

Lemma grpc_unknown_details_skipped_witness :
  DaprGrpcError.status_details foreign_error = StatusDetails.__init__.
Proof.
  apply (grpc_unknown_details_skipped foreign_call foreign_error foreign_status);
    reflexivity.
Defined.

(** X14.  The error keeps what the wrapped [RpcError] answers: [code()] and
    [details()] return the code and the details of the call, and
    [get_grpc_status()] what [rpc_status.from_call] returned for it. *)
Theorem grpc_wraps_call (err : RpcError.t) (e : DaprGrpcError.t) :
  DaprGrpcError.__init__ err = Return e ->
  DaprGrpcError.code e = RpcError.code err
  /\ DaprGrpcError.details e = RpcError.details err
  /\ rpc_status.from_call err = Return (DaprGrpcError.get_grpc_status e).
Proof.
  intros H. apply grpc_init_inv in H as (Hc & Hd & Hs & _). now repeat split.
Qed.

Lemma grpc_wraps_call_witness :
  DaprGrpcError.code busy_error = StatusCode.UNAVAILABLE
  /\ DaprGrpcError.details busy_error = Some "busy"
  /\ rpc_status.from_call busy_call = Return (Some busy_status).
Proof. apply (grpc_wraps_call busy_call busy_error). reflexivity. Defined.

(** X15.  [error_code()] of a constructed error never raises: it returns
    the [reason] of the mapping of the last [ErrorInfo] detail, and
    [UNKNOWN] when that mapping has no such key or there is no such
    detail. *)
Theorem grpc_error_code_total (err : RpcError.t) (e : DaprGrpcError.t) :
  DaprGrpcError.__init__ err = Return e ->
  exists v,
    kept_detail error_details_pb2.ErrorInfo (DaprGrpcError.get_grpc_status e) = Return v
    /\ DaprGrpcError.error_code e =
         Return match v with
                | PDict d => dict_get_default d "reason" (PStr "UNKNOWN")
                | _ => PStr "UNKNOWN"
                end.
Proof.
  intros H.
  destruct (grpc_kept_detail err e _ _ H error_info_kind) as (v & Hk & Hi & Hv).
  exists v. split; [exact Hk|]. now apply error_code_of_error_info.
Qed.

Lemma grpc_error_code_total_witness :
  DaprGrpcError.error_code busy_error = Return (PStr "QUOTA_EXCEEDED").
Proof.
  destruct (grpc_error_code_total busy_call busy_error eq_refl) as (v & Hk & Hc).
  injection Hk as <-. exact Hc.
Defined.

(** X16.  [as_dict()] of the [status_details()] of a constructed error never
    raises and returns the ten attributes under their names, in the order
    of [StatusDetails.__init__]. *)
Theorem grpc_details_as_dict (err : RpcError.t) (e : DaprGrpcError.t) :
  DaprGrpcError.__init__ err = Return e ->
  StatusDetails.as_dict (DaprGrpcError.status_details e)
  = Return (DaprGrpcError.status_details e)
  /\ dict_keys (DaprGrpcError.status_details e) =
       [ "error_info"; "retry_info"; "debug_info"; "quota_failure";
         "precondition_failure"; "bad_request"; "request_info"; "resource_info";
         "help"; "localized_message" ].
Proof.
  intros H.
  assert (Hs : details_shape (fun _ => True) (DaprGrpcError.status_details e)).
  { apply (grpc_details_shape _ err e H). intros status _.
    apply Forall_forall. intros; exact I. }
  split; [exact (as_dict_of_shape _ _ Hs) | exact (proj1 Hs)].
Qed.

Lemma grpc_details_as_dict_witness :
  StatusDetails.as_dict (DaprGrpcError.status_details busy_error)
  = Return (DaprGrpcError.status_details busy_error)
  /\ dict_keys (DaprGrpcError.status_details busy_error) =
       [ "error_info"; "retry_info"; "debug_info"; "quota_failure";
         "precondition_failure"; "bad_request"; "request_info"; "resource_info";
         "help"; "localized_message" ].
Proof. apply (grpc_details_as_dict busy_call busy_error). reflexivity. Defined.

Lemma existsb_eqb_false (k : string) (keys : list string) (k0 : string) :
  existsb (String.eqb k) keys = false -> In k0 keys -> String.eqb k0 k = false.
Proof.
  induction keys as [|x keys IH]; [contradiction|]. cbn.
  intros H [<- | Hin]; apply orb_false_iff in H as [H1 H2].
  - now rewrite String.eqb_sym.
  - now apply IH.
Qed.

(** Two dicts with the same keys, none twice, and the same value under
    each key are the same dict. *)
Lemma dict_ext {A : Type} (a b : list (string * A)) :
  dict_keys a = dict_keys b ->
  distinct (dict_keys a) = true ->
  (forall k, In k (dict_keys a) -> dict_lookup a k = dict_lookup b k) ->
  a = b.
Proof.
  revert b. induction a as [|[k v] a IH]; intros [|[k' v'] b] Hk Hd Hl;
    try discriminate Hk; [reflexivity|].
  cbn in Hk. injection Hk as <- Hk. cbn in Hd. apply andb_true_iff in Hd as [Hn Hd].
  apply negb_true_iff in Hn.
  assert (v = v') as <-.
  { specialize (Hl k (or_introl eq_refl)). cbn in Hl. rewrite String.eqb_refl in Hl.
    now injection Hl. }
  f_equal. apply IH; try assumption.
  intros k0 Hin. specialize (Hl k0 (or_intror Hin)). cbn in Hl.
  now rewrite (existsb_eqb_false k _ k0 Hn Hin) in Hl.
Qed.

(** The loop run again on its own result changes nothing. *)
Lemma for_each_detail_again (details : list Any.t) (self self' : StatusDetails.t) :
  details_shape (fun _ => True) self ->
  DaprGrpcError.for_each_detail details self = Return self' ->
  DaprGrpcError.for_each_detail details self' = Return self'.
Proof.
  intros Hs Hl.
  assert (HQ : Forall (fun detail : Any.t =>
                         forall fields, MessageToDict detail = Return fields -> True)
                 details).
  { apply Forall_forall. intros; exact I. }
  pose proof (details_shape_loop _ _ _ _ Hs Hl HQ) as Hs'.
  pose proof (for_each_detail_outcome details self) as Ho.
  pose proof (for_each_detail_outcome details self') as Ho'.
  destruct (first_unconvertible details) as [exn|]; [congruence|].
  destruct Ho' as (self'' & Hl'). rewrite Hl'. f_equal.
  pose proof (details_shape_loop _ _ _ _ Hs' Hl' HQ) as Hs''.
  apply dict_ext.
  - now rewrite (proj1 Hs'), (proj1 Hs'').
  - now rewrite (proj1 Hs'').
  - intros attr Hin. rewrite (proj1 Hs'') in Hin.
    destruct (field_kind attr Hin) as (full_name & Hk).
    pose proof (for_each_detail_lookup _ _ _ _ _ Hk Hl) as H1.
    pose proof (for_each_detail_lookup _ _ _ _ _ Hk Hl') as H2.
    destruct (last_detail full_name details) as [detail|]; [|exact H2].
    destruct H1 as (fields & Hm & H1). destruct H2 as (fields' & Hm' & H2).
    congruence.
Qed.

(** X17.  Parsing the details again changes nothing: [_parse_details()] on
    a constructed error returns and leaves the same error. *)
Theorem grpc_parse_details_again (err : RpcError.t) (e : DaprGrpcError.t) :
  DaprGrpcError.__init__ err = Return e ->
  DaprGrpcError._parse_details e = Return e.
Proof.
  intros H. pose proof (grpc_init_inv err e H) as (_ & _ & _ & Hd).
  unfold DaprGrpcError._parse_details, DaprGrpcError.get_grpc_status,
    DaprGrpcError.status_details in *.
  destruct e as [code message details grpc_status]. cbn in *.
  destruct grpc_status as [status|]; [|reflexivity].
  rewrite (for_each_detail_again _ _ _ (details_shape_init _) Hd). reflexivity.
Qed.

Lemma grpc_parse_details_again_witness :
  DaprGrpcError._parse_details busy_error = Return busy_error.
Proof. apply (grpc_parse_details_again busy_call busy_error). reflexivity. Defined.

(** * The JSON-safe dictionary loses nothing *)

Lemma b64_index_char (n : nat) : n < 64 -> b64_index (b64_char n) = n.
Proof. do 64 (destruct n as [|n]; [reflexivity|]). lia. Qed.

Lemma b64_char_inj (n m : nat) :
  n < 64 -> m < 64 -> b64_char n = b64_char m -> n = m.
Proof.
  intros Hn Hm H. apply (f_equal b64_index) in H.
  now rewrite !b64_index_char in H.
Qed.

Lemma b64_char_not_pad (n : nat) : n < 64 -> b64_char n <> b64_pad.
Proof.
  intros Hn H. apply (f_equal b64_index) in H. rewrite b64_index_char in H by assumption.
  change (b64_index b64_pad) with 64 in H. lia.
Qed.

Lemma nat_of_byte_bound (b : byte) : nat_of_byte b < 256.
Proof. apply nat_ascii_bounded. Qed.

Lemma nat_of_byte_inj (a b : byte) : nat_of_byte a = nat_of_byte b -> a = b.
Proof.
  unfold nat_of_byte. intros H. apply (f_equal ascii_of_nat) in H.
  rewrite !ascii_nat_embedding in H. apply (f_equal byte_of_ascii) in H.
  now rewrite !byte_of_ascii_of_byte in H.
Qed.

(** Division and remainder by a constant, for [lia]. *)
From Stdlib Require Import ZifyNat.

Lemma cons_inj {A : Type} (x y : A) (l l' : list A) :
  x :: l = y :: l' -> x = y /\ l = l'.
Proof. intros [= -> ->]. now split. Qed.

Ltac b64_nat :=
  repeat match goal with
         | H : b64_char ?n = b64_char ?m |- _ =>
             let Hn := fresh in
             let Hm := fresh in
             assert (Hn : n < 64) by lia; assert (Hm : m < 64) by lia;
             apply (b64_char_inj n m Hn Hm) in H; clear Hn Hm
         | H : b64_char ?n = b64_pad |- _ =>
             exfalso; apply (b64_char_not_pad n); [lia | exact H]
         | H : b64_pad = b64_char ?n |- _ =>
             exfalso; apply (b64_char_not_pad n); [lia | symmetry; exact H]
         end.

Lemma b64encode_inj_upto (n : nat) (x y : bytes) :
  List.length x <= n -> b64encode x = b64encode y -> x = y.
Proof.
  revert x y. induction n as [|n IH]; intros x y Hlen H.
  - destruct x; [|cbn in Hlen; lia]. destruct y as [|a [|b [|c y]]]; [reflexivity|..];
      discriminate H.
  - destruct x as [|a [|b [|c x]]], y as [|a' [|b' [|c' y]]];
      try reflexivity; try discriminate H;
      cbn [b64encode] in H;
      repeat match goal with
             | E : _ :: _ = _ :: _ |- _ => apply cons_inj in E; destruct E as [? ?]
             end;
      repeat match goal with
             | v : byte |- _ =>
                 lazymatch goal with
                 | Hb : nat_of_byte v < 256 |- _ => fail
                 | _ => pose proof (nat_of_byte_bound v)
                 end
             end;
      b64_nat.
    + f_equal. apply nat_of_byte_inj. lia.
    + assert (a = a') by (apply nat_of_byte_inj; lia).
      assert (b = b') by (apply nat_of_byte_inj; lia). congruence.
    + assert (a = a') by (apply nat_of_byte_inj; lia).
      assert (b = b') by (apply nat_of_byte_inj; lia).
      assert (c = c') by (apply nat_of_byte_inj; lia).
      assert (x = y) by (apply IH; [cbn in Hlen; lia | assumption]).
      congruence.
Qed.

Lemma b64encode_inj (x y : bytes) : b64encode x = b64encode y -> x = y.
Proof. apply (b64encode_inj_upto (List.length x)). lia. Qed.

Lemma b64_text_inj (x y : bytes) : b64_text x = b64_text y -> x = y.
Proof.
  unfold b64_text, text_of_bytes. intros H. apply b64encode_inj.
  apply (f_equal list_byte_of_string) in H.
  change (string_of_list_ascii (List.map ascii_of_byte (b64encode x)))
    with (string_of_list_byte (b64encode x)) in H.
  change (string_of_list_ascii (List.map ascii_of_byte (b64encode y)))
    with (string_of_list_byte (b64encode y)) in H.
  now rewrite !list_byte_of_string_of_list_byte in H.
Qed.

(** X18.  [as_json_safe_dict()] loses nothing: two errors have the same
    JSON-safe dictionary only if they are the same error, raw bytes
    included. *)
Theorem json_safe_dict_lossless (a b : DaprInternalError.t) :
  DaprInternalError.as_json_safe_dict a = DaprInternalError.as_json_safe_dict b
  <-> a = b.
Proof.
  split; [|now intros ->].
  unfold DaprInternalError.as_json_safe_dict. rewrite !json_safe_dict_over.
  destruct a as [ma ca ra], b as [mb cb rb].
  unfold DaprInternalError.raw_response_bytes, DaprInternalError.as_dict.
  cbn [DaprInternalError._message DaprInternalError._error_code
       DaprInternalError._raw_response_bytes].
  destruct ra as [x|], rb as [y|]; cbn; intros H; try discriminate H.
  - injection H as -> -> H. apply b64_text_inj in H. now subst.
  - injection H as -> ->. reflexivity.
Qed.
